(** * brunch-typescript: the TypeScript compiler adapter of a Brunch build

    A shallow embedding of the two shipped shapes of the plugin,

    - [src/index.js]          (module [IndexJs]: [compile] returns a promise),
    - [src/unnamed/part_000]  (module [Part000]: [compile] returns or throws),

    and the properties of the specification checked against them.

    JavaScript objects used as dictionaries are [gmap string value]; the
    compiler's enum tables keep their key order (the loop of [resolveEnum]
    returns the first match), so they are association lists.  Everything that
    is not code of the repository (the TypeScript compiler, anymatch, Node's
    [path] and [require], [JSON], the string primitives of the language) is a
    field of the class [Host]; the theorems hold for every host.

    Numbers are the integers and NaN: this covers diagnostic codes, enum codes
    and character offsets; fractions, infinities and the negative zero are
    outside the model. *)

From Stdlib Require Import Ascii String.
From stdpp Require Import gmap strings list pretty.

#[local] Set Warnings "-register-all".
#[local] Open Scope Z_scope.

(** ** JavaScript values *)

Inductive number :=
| NaN
| Int (z : Z).

Inductive value :=
| VUndefined
| VNull
| VBool (b : bool)
| VNumber (n : number)
| VString (s : string)
| VArray (l : list value)
| VObject (m : gmap string value)
| VRegExp (source : string).

(** What a [throw] (or a rejected promise) carries: the plugin throws a plain
    string for diagnostics, everything else is an error object. *)
Inductive thrown :=
| ThrownString (s : string)
| ThrownError (name message : string).

Definition TypeError (message : string) : thrown := ThrownError "TypeError" message.

Definition result (A : Type) : Type := thrown + A.

(** ["\n"] *)
Definition newline : string := String "010"%char EmptyString.

(** ToBoolean. *)
Definition truthy (v : value) : bool :=
  match v with
  | VUndefined | VNull => false
  | VBool b => b
  | VNumber NaN => false
  | VNumber (Int z) => negb (z =? 0)
  | VString s => negb (String.eqb s "")
  | VArray _ | VObject _ | VRegExp _ => true
  end.

Definition Number_toString (n : number) : string :=
  match n with
  | NaN => "NaN"
  | Int z => pretty z
  end.

(** ToString; an array prints its elements joined by commas, [null] and
    [undefined] elements as the empty string. *)
Fixpoint ToString (v : value) : string :=
  match v with
  | VUndefined => "undefined"
  | VNull => "null"
  | VBool true => "true"
  | VBool false => "false"
  | VNumber n => Number_toString n
  | VString s => s
  | VArray l =>
      String.concat ","
        (map (fun e => match e with
                       | VUndefined | VNull => ""
                       | _ => ToString e
                       end) l)
  | VObject _ => "[object Object]"
  | VRegExp source => "/" +:+ source +:+ "/"
  end.

(** ** Records of the compiler interface *)

Definition Options := gmap string value.

(** A compiler enumeration ([ts.ModuleKind], ...), in the order [Object.keys]
    lists it. *)
Definition enum_table := list (string * value).

Definition Object_keys (opts : enum_table) : list string := map fst opts.

Fixpoint enum_get (opts : enum_table) (key : string) : value :=
  match opts with
  | [] => VUndefined
  | (k, v) :: rest => if String.eqb k key then v else enum_get rest key
  end.

Record SourceFile := { lineMap : option (list Z) }.

Record Diagnostic := {
  code : Z;
  messageText : string;
  file : option SourceFile;
  start : Z
}.

Record TranspileOptions := {
  fileName : string;
  reportDiagnostics : bool;
  compilerOptions : Options
}.

Record TranspileOutput := {
  outputText : string;
  diagnostics : list Diagnostic;
  sourceMapText : option string
}.

(** The tsconfig.json module as [require] returns it. *)
Record tsconfig_json := { tsconfig_compilerOptions : option Options }.

(** ** The host: everything the plugin calls and does not define *)

Class Host := {
  (** [String.prototype.toUpperCase] *)
  toUpperCase : string -> string;
  (** ToNumber on strings *)
  StringToNumber : string -> number;
  ts_ModuleKind : enum_table;
  ts_ScriptTarget : enum_table;
  ts_JsxEmit : enum_table;
  (** [ts.transpileModule(input, transpileOptions)] *)
  ts_transpileModule : string -> TranspileOptions -> result TranspileOutput;
  (** [anymatch(matchers)], a predicate on paths *)
  anymatch : value -> result (string -> bool);
  (** [path.resolve(root, name)] on two strings *)
  path_resolve : string -> string -> string;
  (** [require(file)] of a JSON module *)
  require_ : string -> result tsconfig_json;
  JSON_parse : string -> result value;
  JSON_stringify : value -> string
}.

(** ** Functions the two files share verbatim *)

Section Shared.
Context {host : Host}.

(** ToNumber, as [isNaN(choice)] and [choice - 0] apply it. *)
Definition ToNumber (v : value) : number :=
  match v with
  | VUndefined => NaN
  | VNull => Int 0
  | VBool true => Int 1
  | VBool false => Int 0
  | VNumber n => n
  | VString s => StringToNumber s
  | VArray _ | VObject _ | VRegExp _ => StringToNumber (ToString v)
  end.

Definition isNaN (v : value) : bool :=
  match ToNumber v with
  | NaN => true
  | Int _ => false
  end.

Definition number_sub (a b : number) : number :=
  match a, b with
  | Int x, Int y => Int (x - y)
  | _, _ => NaN
  end.

(** The [for (const opt of Object.keys(opts))] loop of [resolveEnum] on a
    string choice: the value under the first key equal to the choice once both
    are upper-cased. *)
Fixpoint resolveEnum_loop (choice : string) (keys : list string) (opts : enum_table)
  : option value :=
  match keys with
  | [] => None
  | opt :: rest =>
      if String.eqb (toUpperCase choice) (toUpperCase opt)
      then Some (enum_get opts opt)
      else resolveEnum_loop choice rest opts
  end.

(** index.js 15-28, part_000 7-20. A truthy choice that is not a number and
    has no [toUpperCase] (an object) makes the first iteration throw. *)
Definition resolveEnum (choice : value) (opts : enum_table) : result value :=
  let defaultValue := VNumber (Int 1) in
  if negb (truthy choice) then inr defaultValue
  else if negb (isNaN choice) then inr (VNumber (number_sub (ToNumber choice) (Int 0)))
  else
    match choice with
    | VString s =>
        match resolveEnum_loop s (Object_keys opts) opts with
        | Some v => inr v
        | None => inr defaultValue
        end
    | _ =>
        match Object_keys opts with
        | [] => inr defaultValue
        | _ :: _ => inl (TypeError "choice.toUpperCase is not a function")
        end
    end.

(** The [while] loop of [findLessOrEqual], [i] being the loop variable; it runs
    at most [length haystack] times, which is the fuel [findLessOrEqual]
    gives it. *)
Fixpoint findLessOrEqual_loop (fuel : nat) (haystack : list Z) (needle : Z) (i : nat) : nat :=
  match fuel with
  | O => i
  | S fuel' =>
      match haystack !! (i + 1)%nat with
      | Some next =>
          if needle >=? next
          then findLessOrEqual_loop fuel' haystack needle (i + 1)%nat
          else i
      | None => i
      end
  end.

(** index.js 42-48, part_000 32-38. *)
Definition findLessOrEqual (haystack : list Z) (needle : Z) : Z :=
  let i := findLessOrEqual_loop (length haystack) haystack needle 0 in
  if (i =? length haystack)%nat then -1 else Z.of_nat i.

(** [lineMap[lineIndex]]: [undefined] out of range, also at index -1. *)
Definition lineMap_at (lm : list Z) (lineIndex : Z) : option Z :=
  if lineIndex <? 0 then None else lm !! Z.to_nat lineIndex.

(** index.js 50-60, part_000 40-50. *)
Definition errPos (err : Diagnostic) : string :=
  match file err with
  | Some f =>
      match lineMap f with
      | Some lm =>
          let lineIndex := findLessOrEqual lm (start err) in
          let col := match lineMap_at lm lineIndex with
                     | Some line_start => Int (start err - line_start + 1)
                     | None => NaN
                     end in
          "Line: " +:+ Number_toString (Int (lineIndex + 1)) +:+
          ", Col: " +:+ Number_toString col
      | None => "No line map"
      end
  | None => "No line map"
  end.

(** index.js 62, part_000 52. *)
Definition toMeaningfulMessage (err : Diagnostic) : string :=
  "Error " +:+ Number_toString (Int (code err)) +:+ ": " +:+ messageText err +:+
  " (" +:+ errPos err +:+ ")".

End Shared.

(** ** Sequential code with a store and exceptions *)

#[global] Instance result_ret : MRet result := fun A (a : A) => inr a.

#[global] Instance result_bind : MBind result := fun A B (k : A -> result B) (r : result A) =>
  match r with
  | inr a => k a
  | inl e => inl e
  end.

Definition M (St A : Type) : Type := St -> result A * St.

#[global] Instance M_ret {St} : MRet (M St) := fun A (a : A) st => (inr a, st).

#[global] Instance M_bind {St} : MBind (M St) := fun A B (k : A -> M St B) (m : M St A) st =>
  match m st with
  | (inr a, st') => k a st'
  | (inl e, st') => (inl e, st')
  end.

Definition throw {St A} (e : thrown) : M St A := fun st => (inl e, st).

Definition gets {St A} (f : St -> A) : M St A := fun st => (inr (f st), st).

Definition modify {St} (f : St -> St) : M St unit := fun st => (inr tt, f st).

(** A pure step that may throw. *)
Definition lift {St A} (r : result A) : M St A := fun st => (r, st).

(** [try { body } catch (err) { handler }] *)
Definition try_catch {St A} (body : M St A) (handler : thrown -> M St A) : M St A := fun st =>
  match body st with
  | (inr a, st') => (inr a, st')
  | (inl e, st') => handler e st'
  end.

(** ** Files, results and the adapter object *)

Record FileRecord := { path : string; data : string }.

Record CompileResult := { result_data : string; result_map : option string }.

(** What [compile] hands back: the very object it was given, or a new result. *)
Inductive output :=
| PassThrough (params : FileRecord)
| Compiled (r : CompileResult).

(** A JavaScript [Set], by its elements. *)
Definition JsSet := list value.

(** [set.has(code)] for a number [code] (SameValueZero). *)
Definition Set_has (s : JsSet) (c : Z) : bool :=
  existsb (fun v => match v with VNumber (Int z) => z =? c | _ => false end) s.

(** [new Set(iterable)]: arrays and strings are iterable, the other truthy
    values are not. *)
Definition new_Set (iterable : value) : result JsSet :=
  match iterable with
  | VArray l => inr l
  | VString s => inr (map (fun c => VString (String c EmptyString)) (String.list_ascii_of_string s))
  | VUndefined | VNull => inr []
  | _ => inl (TypeError "object is not iterable")
  end.

(** The own properties of a [TypeScriptCompiler] instance. *)
Record TypeScriptCompiler := {
  options : Options;
  isIgnored : string -> bool;
  pattern : option value;
  ignoreAllErrors : option bool;
  ignoreErrors : option JsSet;
  targetExtension : option string
}.

(** [TypeScriptCompiler.prototype.pattern = /\.tsx?$/] *)
Definition prototype_pattern : value := VRegExp "\.tsx?$".

Definition get_pattern (self : TypeScriptCompiler) : value :=
  default prototype_pattern (pattern self).

(** The store [compile] runs in: the adapter, and the calls made so far to the
    transpile operation (input and options), latest last. *)
Record World := {
  this : TypeScriptCompiler;
  transpile_calls : list (string * TranspileOptions)
}.

Definition log_call (input : string) (o : TranspileOptions) (w : World) : World :=
  {| this := this w; transpile_calls := transpile_calls w ++ [(input, o)] |}.

(** The configuration object Brunch passes to the constructor. *)
Record Plugins := {
  typescript : option Options;
  brunchTypescript : option Options
}.

Record Paths := { root : option string }.

Record Conventions := { vendor : value }.

Record Config := {
  plugins : option Plugins;
  paths : option Paths;
  sourceMaps : value;
  conventions : option Conventions
}.

(** [{}] *)
Definition empty_config : Config :=
  {| plugins := None; paths := None; sourceMaps := VUndefined; conventions := None |}.

(** [o[key]] on an options object. *)
Definition get (o : Options) (key : string) : value := default VUndefined (o !! key).

(** index.js 7-13 *)
Definition ignoredErrors : gset Z := {[ 1208; 2307; 2304; 2322; 2339 ]}.

Definition ignoredErrors_has (c : Z) : bool := bool_decide (c ∈ ignoredErrors).

(** [array[0] = v]: an empty array grows by one element. *)
Definition array_set_0 (l : list value) (v : value) : list value :=
  match l with
  | [] => [v]
  | _ :: rest => v :: rest
  end.

(** [rawMap.sources[0] = path] in strict mode, on the parsed source map. *)
Definition set_sources_0 (rawMap : value) (p : string) : result value :=
  match rawMap with
  | VObject m =>
      match m !! "sources" with
      | Some (VArray l) => inr (VObject (<["sources" := VArray (array_set_0 l (VString p))]> m))
      | Some (VObject o) => inr (VObject (<["sources" := VObject (<["0" := VString p]> o)]> m))
      | Some (VRegExp _) => inr rawMap
      | Some VUndefined | Some VNull | None =>
          inl (TypeError "Cannot set properties of undefined")
      | Some (VBool _) | Some (VNumber _) | Some (VString _) =>
          inl (TypeError "Cannot create property on a primitive")
      end
  | VUndefined | VNull => inl (TypeError "Cannot read properties of undefined")
  | _ => inl (TypeError "Cannot set properties of undefined")
  end.

(** [rawMap.sources[0]] read back. *)
Definition sources_0 (rawMap : value) : option value :=
  match rawMap with
  | VObject m =>
      match m !! "sources" with
      | Some (VArray l) => l !! 0%nat
      | Some (VObject o) => o !! "0"
      | _ => None
      end
  | _ => None
  end.

Section Emit.
Context {host : Host}.

(** [`${compiled.outputText || compiled}\n`]: an empty output text is falsy and
    the template prints the result object itself. *)
Definition result_text (compiled : TranspileOutput) : string :=
  (if String.eqb (outputText compiled) "" then "[object Object]" else outputText compiled)
  +:+ newline.

(** index.js 134-141, part_000 114-121: the result object, its map patched. *)
Definition build_result (compiled : TranspileOutput) (p : string) : result CompileResult :=
  let data := result_text compiled in
  match sourceMapText compiled with
  | Some text =>
      if String.eqb text "" then inr {| result_data := data; result_map := None |}
      else
        match JSON_parse text with
        | inl e => inl e
        | inr rawMap =>
            match set_sources_0 rawMap p with
            | inl e => inl e
            | inr rawMap' =>
                inr {| result_data := data; result_map := Some (JSON_stringify rawMap') |}
            end
        end
  | None => inr {| result_data := data; result_map := None |}
  end.

(** [reportable.map(toMeaningfulMessage).join('\n')] *)
Definition join_messages (reportable : list Diagnostic) : string :=
  String.concat newline (map toMeaningfulMessage reportable).

(** The adapter's own filter (index.js 121-125, part_000 104-108): nothing is
    left when [ignoreAllErrors] is set, else the codes of [ignoreErrors] go. *)
Definition own_filter (self : TypeScriptCompiler) (diag : list Diagnostic) : list Diagnostic :=
  match ignoreAllErrors self with
  | Some true => []
  | _ =>
      match ignoreErrors self with
      | Some s => List.filter (fun err => negb (Set_has s (code err))) diag
      | None => diag
      end
  end.

End Emit.

(** The statements of the constructor both files share (index.js 73-101,
    part_000 62-91). *)
Section Construction.
Context {host : Host}.

(** [Object.keys(options).forEach(key => ...)]: every key of the plugin
    options but [sourceMap] and [ignore] is copied over [this.options]. *)
Definition overlay (plugin_options this_options : Options) : Options :=
  map_fold (fun key v acc =>
              if String.eqb key "sourceMap" || String.eqb key "ignore" then acc
              else <[key := v]> acc)
           this_options plugin_options.

(** [x !== false] *)
Definition not_false (v : value) : bool :=
  match v with
  | VBool false => false
  | _ => true
  end.

(** index.js 78-87, part_000 68-77 (without line 67). *)
Definition normalize (sourceMaps_flag : value) (o : Options) : result Options :=
  module_ ← resolveEnum (get o "module") ts_ModuleKind;
  let o := <["module" := module_]> o in
  target ← resolveEnum (get o "target") ts_ScriptTarget;
  let o := <["target" := target]> o in
  jsx ← resolveEnum (get o "jsx") ts_JsxEmit;
  let o := <["jsx" := jsx]> o in
  let o := <["emitDecoratorMetadata" := VBool (not_false (get o "emitDecoratorMetadata"))]> o in
  let o := <["experimentalDecorators" := VBool (not_false (get o "experimentalDecorators"))]> o in
  let o := <["noEmitOnError" := VBool false]> o in
  let o := delete "moduleResolution" o in
  inr (<["sourceMap" := VBool (truthy sourceMaps_flag)]> o).

(** [anymatch(options.ignore || config.conventions.vendor)]: the right operand
    is evaluated, and [config.conventions] dereferenced, only when
    [options.ignore] is falsy. *)
Definition build_isIgnored (plugin_options : Options) (config : Config)
  : result (string -> bool) :=
  let ignore := get plugin_options "ignore" in
  if truthy ignore then anymatch ignore
  else
    match conventions config with
    | Some c => anymatch (vendor c)
    | None => inl (TypeError "Cannot read properties of undefined (reading 'vendor')")
    end.

(** index.js 89-101, part_000 79-91, from the options normalized so far. *)
Definition finish (o : Options) (ignored : string -> bool) (ext : option string)
  : result TypeScriptCompiler :=
  let pat := get o "pattern" in
  let '(own_pattern, o) :=
    if truthy pat then (Some pat, delete "pattern" o) else (None, o) in
  let ie := get o "ignoreErrors" in
  if truthy ie then
    match ie with
    | VBool true =>
        inr {| options := delete "ignoreErrors" o; isIgnored := ignored;
               pattern := own_pattern; ignoreAllErrors := Some true;
               ignoreErrors := None; targetExtension := ext |}
    | _ =>
        s ← new_Set ie;
        inr {| options := delete "ignoreErrors" o; isIgnored := ignored;
               pattern := own_pattern; ignoreAllErrors := None;
               ignoreErrors := Some s; targetExtension := ext |}
    end
  else
    inr {| options := o; isIgnored := ignored; pattern := own_pattern;
           ignoreAllErrors := None; ignoreErrors := None; targetExtension := ext |}.

End Construction.

(** ** src/index.js: the promise-returning adapter *)

Module IndexJs.

(** A promise whose executor has run: settled once, or still pending. *)
Inductive Promise :=
| Pending
| Fulfilled (v : output)
| Rejected (reason : thrown).

Definition settle (outcome p : Promise) : Promise :=
  match p with
  | Pending => outcome
  | _ => p
  end.

(** The store of an executor: the world and the promise being settled. *)
Definition resolve (v : output) : M (World * Promise) unit :=
  modify (fun '(w, p) => (w, settle (Fulfilled v) p)).

Definition reject (reason : thrown) : M (World * Promise) unit :=
  modify (fun '(w, p) => (w, settle (Rejected reason) p)).

Definition in_world {A} (m : M World A) : M (World * Promise) A := fun '(w, p) =>
  let '(r, w') := m w in (r, (w', p)).

(** [new Promise(executor)]: the executor runs at once; what it throws rejects
    the promise unless it is settled already. *)
Definition new_Promise (executor : M (World * Promise) unit) : M World Promise := fun w =>
  match executor (w, Pending) with
  | (inr _, (w', p)) => (inr p, w')
  | (inl e, (w', p)) => (inr (settle (Rejected e) p), w')
  end.

(** [Promise.resolve(v)] *)
Definition Promise_resolve (v : output) : Promise := Fulfilled v.

Section Adapter.
Context {host : Host}.

(** index.js 30-40; [None] is [undefined]. *)
Definition getTsconfig (configRoot : option string) : option Options :=
  match configRoot with
  | None => Some ∅
  | Some r =>
      if String.eqb r "" then Some ∅
      else
        let file := path_resolve r "tsconfig.json" in
        match require_ file with
        | inr tsconfig => tsconfig_compilerOptions tsconfig
        | inl _ => Some ∅
        end
  end.

(** index.js 65-102 *)
Definition constructor (config : option Config) : result TypeScriptCompiler :=
  let config := default empty_config config in
  let plugin_options :=
    match plugins config with
    | Some p => default ∅ (brunchTypescript p)
    | None => ∅
    end in
  match getTsconfig (match paths config with Some p => root p | None => None end) with
  | None => inl (TypeError "Cannot read properties of undefined (reading 'module')")
  | Some tsconfig_options =>
      o ← normalize (sourceMaps config) (overlay plugin_options tsconfig_options);
      ignored ← build_isIgnored plugin_options config;
      finish o ignored None
  end.

Definition call_transpileModule (input : string) (o : TranspileOptions)
  : M World TranspileOutput := fun w =>
  (ts_transpileModule input o, log_call input o w).

(** index.js 119-125: the fixed ignore-set first, then the adapter's filter. *)
Definition reportable_diagnostics (self : TypeScriptCompiler) (compiled : TranspileOutput)
  : list Diagnostic :=
  let reportable :=
    List.filter (fun err => negb (ignoredErrors_has (code err))) (diagnostics compiled) in
  own_filter self reportable.

(** index.js 113-144, the executor; [None] from the [try] statement is the
    [return] of its [catch] clause. *)
Definition executor (params : FileRecord) (tsOptions : TranspileOptions)
  : M (World * Promise) unit :=
  tried ← try_catch
    (compiled ← in_world (call_transpileModule (data params) tsOptions);
     self ← in_world (gets this);
     let reportable := reportable_diagnostics self compiled in
     _ ← (if (0 <? length reportable)%nat
          then reject (ThrownString (join_messages reportable))
          else mret tt);
     mret (Some compiled))
    (fun err => _ ← reject err; mret None);
  match tried with
  | None => mret tt
  | Some compiled =>
      r ← lift (build_result compiled (path params));
      resolve (Compiled r)
  end.

(** index.js 104-145 *)
Definition compile (params : FileRecord) : M World Promise :=
  self ← gets this;
  if isIgnored self (path params) then mret (Promise_resolve (PassThrough params))
  else
    let tsOptions := {| fileName := path params; reportDiagnostics := true;
                        compilerOptions := options self |} in
    new_Promise (executor params tsOptions).

End Adapter.
End IndexJs.

(** ** src/unnamed/part_000: the adapter that returns or throws *)

Module Part000.

Section Adapter.
Context {host : Host}.

(** [require('./transpile')]: the module is not among the sources, the
    adapter is stated for any function in its place. *)
Variable transpileModule : string -> TranspileOptions -> result TranspileOutput.

(** part_000 22-30. [config.paths.root] is read before the [try]; Node's
    [path.resolve] throws a TypeError on an argument that is not a string. *)
Definition getTSconfig (config : Config) : result (option Options) :=
  match paths config with
  | None => inl (TypeError "Cannot read properties of undefined (reading 'root')")
  | Some p =>
      match root p with
      | None => inl (TypeError "The paths[0] argument must be of type string")
      | Some r =>
          let TSconfig := path_resolve r "tsconfig.json" in
          match require_ TSconfig with
          | inr tsconfig => inr (tsconfig_compilerOptions tsconfig)
          | inl _ => inr (Some ∅)
          end
      end
  end.

(** part_000 67: [this.options.jsx === 'preserve' ? 'jsx' : 'js'] *)
Definition jsx_extension (o : Options) : string :=
  match get o "jsx" with
  | VString s => if String.eqb s "preserve" then "jsx" else "js"
  | _ => "js"
  end.

(** part_000 55-92 *)
Definition constructor (config : option Config) : result TypeScriptCompiler :=
  match config with
  | None => inl (TypeError "Cannot read properties of undefined (reading 'plugins')")
  | Some config =>
      match plugins config with
      | None => inl (TypeError "Cannot read properties of undefined (reading 'typescript')")
      | Some p =>
          let plugin_options :=
            match typescript p with
            | Some o => o
            | None => default ∅ (brunchTypescript p)
            end in
          loaded ← getTSconfig config;
          match loaded with
          | None => inl (TypeError "Cannot read properties of undefined (reading 'jsx')")
          | Some tsconfig_options =>
              let o := overlay plugin_options tsconfig_options in
              let ext := jsx_extension o in
              o ← normalize (sourceMaps config) o;
              ignored ← build_isIgnored plugin_options config;
              finish o ignored (Some ext)
          end
      end
  end.

Definition call_transpileModule (input : string) (o : TranspileOptions)
  : M World TranspileOutput := fun w =>
  (transpileModule input o, log_call input o w).

(** part_000 94-124 *)
Definition compile (file : FileRecord) : M World output :=
  self ← gets this;
  if isIgnored self (path file) then mret (PassThrough file)
  else
    compiled ← call_transpileModule (data file)
      {| fileName := path file; reportDiagnostics := true;
         compilerOptions := options self |};
    self ← gets this;
    let diag := own_filter self (diagnostics compiled) in
    if (0 <? length diag)%nat then throw (ThrownString (join_messages diag))
    else
      r ← lift (build_result compiled (path file));
      mret (Compiled r).

End Adapter.

Section Helper.
Context {host : Host}.

(** Modelled from the spec: [./transpile], the module part_000 takes its
    [transpileModule] from, is not among the sources.  Section 4.1, steps 2
    and 3: the external single-file transpile operation is invoked, and the
    diagnostics whose code is in the fixed ignore-set are removed from the list
    it returns, before the adapter's own filter applies.  part_000 applies its
    own filter only, so the removal is the helper's. *)
Definition transpile_js (input : string) (o : TranspileOptions) : result TranspileOutput :=
  compiled ← ts_transpileModule input o;
  inr {| outputText := outputText compiled;
         diagnostics :=
           List.filter (fun err => negb (ignoredErrors_has (code err))) (diagnostics compiled);
         sourceMapText := sourceMapText compiled |}.

End Helper.
End Part000.

(** ** src/index.js: the constructor and the module cache of [require]

    Node keeps the object a [require] returns and hands the same object to
    every later [require] of the file.  [getTsconfig] returns the
    [compilerOptions] object of that module, the constructor keeps it as
    [this.options] and writes to it: the writes land in the cached module.
    Here the constructor runs with the content of the [this.options] object as
    its store, and the cache takes that content when the object is a
    module's. *)

Module Cached.

(** For each loaded file, the current content of its [compilerOptions]
    ([None]: the module has no such field). *)
Definition ModuleCache := gmap string (option Options).

(** Where the object [getTsconfig] returned lives: it is a fresh [{}], or the
    [compilerOptions] of the cached module of a file. *)
Inductive place :=
| Literal
| OfModule (file : string).

(** [this.options[key] = v], [delete this.options[key]], [this.options[key]] *)
Definition assign (key : string) (v : value) : M Options unit := modify (<[key := v]>).

Definition remove (key : string) : M Options unit := modify (delete key).

Definition read (key : string) : M Options value := gets (fun o => get o key).

Section Adapter.
Context {host : Host}.

(** [require(file).compilerOptions]: from the cache when the file was loaded
    before; else the file is loaded and, when that succeeds, cached. *)
Definition require_compilerOptions (file : string) : M ModuleCache (option Options) :=
  fun cache =>
    match cache !! file with
    | Some compilerOptions => (inr compilerOptions, cache)
    | None =>
        match require_ file with
        | inr tsconfig =>
            (inr (tsconfig_compilerOptions tsconfig),
             <[file := tsconfig_compilerOptions tsconfig]> cache)
        | inl e => (inl e, cache)
        end
    end.

(** index.js 30-40, with the place of the object it returns. *)
Definition getTsconfig (configRoot : option string) : M ModuleCache (place * option Options) :=
  match configRoot with
  | None => mret (Literal, Some ∅)
  | Some r =>
      if String.eqb r "" then mret (Literal, Some ∅)
      else
        let file := path_resolve r "tsconfig.json" in
        try_catch
          (compilerOptions ← require_compilerOptions file;
           mret (OfModule file, compilerOptions))
          (fun _ => mret (Literal, Some ∅))
  end.

(** index.js 73-101, statement by statement, on the [this.options] object. *)
Definition body (plugin_options : Options) (config : Config) : M Options TypeScriptCompiler :=
  _ ← modify (overlay plugin_options);
  choice ← read "module";
  v ← lift (resolveEnum choice ts_ModuleKind);
  _ ← assign "module" v;
  choice ← read "target";
  v ← lift (resolveEnum choice ts_ScriptTarget);
  _ ← assign "target" v;
  choice ← read "jsx";
  v ← lift (resolveEnum choice ts_JsxEmit);
  _ ← assign "jsx" v;
  x ← read "emitDecoratorMetadata";
  _ ← assign "emitDecoratorMetadata" (VBool (not_false x));
  x ← read "experimentalDecorators";
  _ ← assign "experimentalDecorators" (VBool (not_false x));
  _ ← assign "noEmitOnError" (VBool false);
  _ ← remove "moduleResolution";
  _ ← assign "sourceMap" (VBool (truthy (sourceMaps config)));
  ignored ← lift (build_isIgnored plugin_options config);
  pat ← read "pattern";
  own_pattern ← (if truthy pat then _ ← remove "pattern"; mret (Some pat) else mret None);
  ie ← read "ignoreErrors";
  if truthy ie then
    match ie with
    | VBool true =>
        _ ← remove "ignoreErrors";
        o ← gets id;
        mret {| options := o; isIgnored := ignored; pattern := own_pattern;
                ignoreAllErrors := Some true; ignoreErrors := None;
                targetExtension := None |}
    | _ =>
        s ← lift (new_Set ie);
        _ ← remove "ignoreErrors";
        o ← gets id;
        mret {| options := o; isIgnored := ignored; pattern := own_pattern;
                ignoreAllErrors := None; ignoreErrors := Some s;
                targetExtension := None |}
    end
  else
    o ← gets id;
    mret {| options := o; isIgnored := ignored; pattern := own_pattern;
            ignoreAllErrors := None; ignoreErrors := None; targetExtension := None |}.

(** The body runs on the object [getTsconfig] returned; what it leaves in the
    object, also when it throws, is what the cached module then holds. *)
Definition run_body (where_ : place) (plugin_options : Options) (config : Config)
    (this_options : Options) : M ModuleCache TypeScriptCompiler :=
  fun cache =>
    let '(r, content) := body plugin_options config this_options in
    (r, match where_ with
        | Literal => cache
        | OfModule file => <[file := Some content]> cache
        end).

(** index.js 65-102 *)
Definition constructor (config : option Config) : M ModuleCache TypeScriptCompiler :=
  let config := default empty_config config in
  let plugin_options :=
    match plugins config with
    | Some p => default ∅ (brunchTypescript p)
    | None => ∅
    end in
  loaded ← getTsconfig (match paths config with Some p => root p | None => None end);
  match loaded with
  | (_, None) => throw (TypeError "Cannot read properties of undefined (reading 'module')")
  | (where_, Some this_options) => run_body where_ plugin_options config this_options
  end.

End Adapter.
End Cached.

(** ** A concrete host, for running the adapter on examples *)

Module Sample.

Definition ascii_toUpperCase (c : ascii) : ascii :=
  let n := nat_of_ascii c in
  if ((97 <=? n) && (n <=? 122))%nat then ascii_of_nat (n - 32) else c.

(** [toUpperCase] on ASCII text. *)
Fixpoint ascii_upper (s : string) : string :=
  match s with
  | EmptyString => EmptyString
  | String c rest => String (ascii_toUpperCase c) (ascii_upper rest)
  end.

Fixpoint digits_value (acc : Z) (s : string) : option Z :=
  match s with
  | EmptyString => Some acc
  | String c rest =>
      let n := nat_of_ascii c in
      if ((48 <=? n) && (n <=? 57))%nat
      then digits_value (10 * acc + Z.of_nat (n - 48)) rest
      else None
  end.

(** ToNumber on the empty string and on decimal integer literals; every other
    string reads as NaN here. *)
Definition decimal_to_number (s : string) : number :=
  match s with
  | EmptyString => Int 0
  | String c rest =>
      if Ascii.eqb c "-"%char then
        match rest with
        | EmptyString => NaN
        | _ => match digits_value 0 rest with Some z => Int (- z) | None => NaN end
        end
      else match digits_value 0 s with Some z => Int z | None => NaN end
  end.

Definition number_key (z : Z) (name : string) : string * value := (pretty z, VString name).
Definition name_key (name : string) (z : Z) : string * value := (name, VNumber (Int z)).

(** [ts.ScriptTarget] of TypeScript 3.x: integer keys first, as [Object.keys]
    lists them. *)
Definition ScriptTarget : enum_table :=
  [ number_key 0 "ES3"; number_key 1 "ES5"; number_key 2 "ES2015"; number_key 3 "ES2016";
    number_key 4 "ES2017"; number_key 5 "ES2018"; number_key 99 "Latest";
    number_key 100 "JSON";
    name_key "ES3" 0; name_key "ES5" 1; name_key "ES2015" 2; name_key "ES2016" 3;
    name_key "ES2017" 4; name_key "ES2018" 5; name_key "ESNext" 99; name_key "JSON" 100;
    name_key "Latest" 99 ].

Definition ModuleKind : enum_table :=
  [ number_key 0 "None"; number_key 1 "CommonJS"; number_key 2 "AMD"; number_key 3 "UMD";
    number_key 4 "System"; number_key 5 "ES2015"; number_key 6 "ESNext";
    name_key "None" 0; name_key "CommonJS" 1; name_key "AMD" 2; name_key "UMD" 3;
    name_key "System" 4; name_key "ES2015" 5; name_key "ESNext" 6 ].

Definition JsxEmit : enum_table :=
  [ number_key 0 "None"; number_key 1 "Preserve"; number_key 2 "React";
    number_key 3 "ReactNative";
    name_key "None" 0; name_key "Preserve" 1; name_key "React" 2; name_key "ReactNative" 3 ].

Definition quote : string := String "034"%char EmptyString.

(** The source map the sample compiler emits, and its parsed form. *)
Definition map_text : string :=
  "{" +:+ quote +:+ "version" +:+ quote +:+ ":3," +:+ quote +:+ "sources" +:+ quote +:+
  ":[" +:+ quote +:+ "module.ts" +:+ quote +:+ "]}".

Definition map_value : value :=
  VObject (<["version" := VNumber (Int 3)]>
           (<["sources" := VArray [VString "module.ts"]]> ∅)).

Definition parse (text : string) : result value :=
  if String.eqb text map_text then inr map_value
  else inl (ThrownError "SyntaxError" "Unexpected token").

(** Prints the [sources] entry only, which is all the examples look at. *)
Definition stringify (v : value) : string :=
  match sources_0 v with
  | Some (VString s) =>
      "{" +:+ quote +:+ "sources" +:+ quote +:+ ":[" +:+ quote +:+ s +:+ quote +:+ "]}"
  | _ => "{}"
  end.

Definition matcher (m : value) : result (string -> bool) :=
  match m with
  | VString s | VRegExp s => inr (fun p => String.prefix s p)
  | VUndefined | VNull => inl (TypeError "anymatch: specify first argument")
  | _ => inr (fun _ => false)
  end.

Definition resolve_path (r name : string) : string := r +:+ "/" +:+ name.

(** One project has a tsconfig.json, one has a tsconfig.json without
    [compilerOptions], every other path has none. *)
Definition require_json (f : string) : result tsconfig_json :=
  if String.eqb f "/app/tsconfig.json"
  then inr {| tsconfig_compilerOptions := Some (<["target" := VString "es2015"]> ∅) |}
  else if String.eqb f "/bare/tsconfig.json"
  then inr {| tsconfig_compilerOptions := None |}
  else inl (ThrownError "Error" "Cannot find module").

Definition source_file : SourceFile := {| lineMap := Some [0; 12; 30] |}.

(** "Cannot find module" (in the fixed set) and "';' expected". *)
Definition missing_module : Diagnostic :=
  {| code := 2307; messageText := "Cannot find module 'y'."; file := Some source_file;
     start := 5 |}.

Definition semicolon_expected : Diagnostic :=
  {| code := 1005; messageText := "';' expected."; file := Some source_file; start := 14 |}.

Definition no_file : Diagnostic :=
  {| code := 5023; messageText := "Unknown compiler option."; file := None; start := 0 |}.

(** A stand-in for the compiler: the input comes back as the output, with the
    diagnostics the input's first word asks for, and a source map on demand. *)
Definition transpile (input : string) (o : TranspileOptions) : result TranspileOutput :=
  if String.prefix "throw" input then inl (ThrownError "Error" "Debug Failure.")
  else
    inr {| outputText := input;
           diagnostics :=
             if String.prefix "import" input then [missing_module]
             else if String.prefix "broken" input then [missing_module; semicolon_expected; no_file]
             else [];
           sourceMapText :=
             match compilerOptions o !! "sourceMap" with
             | Some (VBool true) => Some map_text
             | _ => None
             end |}.

#[local] Instance node : Host := {|
  toUpperCase := ascii_upper;
  StringToNumber := decimal_to_number;
  ts_ModuleKind := ModuleKind;
  ts_ScriptTarget := ScriptTarget;
  ts_JsxEmit := JsxEmit;
  ts_transpileModule := transpile;
  anymatch := matcher;
  path_resolve := resolve_path;
  require_ := require_json;
  JSON_parse := parse;
  JSON_stringify := stringify
|}.

(** A configuration as Brunch builds it. *)
Definition config (plugin_options : Options) (maps : bool) : Config :=
  {| plugins := Some {| typescript := None; brunchTypescript := Some plugin_options |};
     paths := Some {| root := Some "/app" |};
     sourceMaps := VBool maps;
     conventions := Some {| vendor := VRegExp "vendor/" |} |}.

Definition world (self : TypeScriptCompiler) : World :=
  {| this := self; transpile_calls := [] |}.

End Sample.

(** * Notions the statements are written with *)

(** The promise a finished computation settles. *)
Definition promise_of (r : result output) : IndexJs.Promise :=
  match r with
  | inr v => IndexJs.Fulfilled v
  | inl e => IndexJs.Rejected e
  end.

(** The options object [compile] passes to the transpile operation. *)
Definition tsOptions_of (self : TypeScriptCompiler) (params : FileRecord) : TranspileOptions :=
  {| fileName := path params; reportDiagnostics := true; compilerOptions := options self |}.

(** The outcome once the diagnostics left after filtering are known. *)
Definition outcome_of {host : Host} (reportable : list Diagnostic)
    (compiled : TranspileOutput) (p : string) : result output :=
  match reportable with
  | [] =>
      match build_result compiled p with
      | inr r => inr (Compiled r)
      | inl e => inl e
      end
  | _ :: _ => inl (ThrownString (join_messages reportable))
  end.

(** The plugin options index.js reads: [config.plugins.brunchTypescript]. *)
Definition index_plugin_options (c : Config) : Options :=
  match plugins c with
  | Some p => default ∅ (brunchTypescript p)
  | None => ∅
  end.

(** The plugin options part_000 reads: [typescript] first. *)
Definition part_plugin_options (p : Plugins) : Options :=
  match typescript p with
  | Some o => o
  | None => default ∅ (brunchTypescript p)
  end.

(** The keys [normalize] writes or deletes. *)
Definition normalized_keys : list string :=
  ["module"; "target"; "jsx"; "emitDecoratorMetadata"; "experimentalDecorators";
   "noEmitOnError"; "moduleResolution"; "sourceMap"].

(** An adapter with no filter of its own, source maps off. *)
Definition plain_adapter : TypeScriptCompiler :=
  {| options := <["sourceMap" := VBool false]> ∅;
     isIgnored := String.prefix "vendor/";
     pattern := None;
     ignoreAllErrors := None;
     ignoreErrors := None;
     targetExtension := None |}.

Definition vendor_file : FileRecord := {| path := "vendor/jquery.ts"; data := "broken" |}.

(** Its only diagnostic is "Cannot find module". *)
Definition import_file : FileRecord := {| path := "app/a.ts"; data := "import x from 'y';" |}.

(** Three diagnostics, one of them in the fixed set. *)
Definition broken_file : FileRecord := {| path := "app/b.ts"; data := "broken" |}.

Definition empty_file : FileRecord := {| path := "app/empty.ts"; data := "" |}.

(** What the sample compiler returns for a file, under an adapter's options. *)
Definition sample_output (self : TypeScriptCompiler) (params : FileRecord) : TranspileOutput :=
  match Sample.transpile (data params) (tsOptions_of self params) with
  | inr compiled => compiled
  | inl _ => {| outputText := ""; diagnostics := []; sourceMapText := None |}
  end.

(** The adapter index.js builds from a configuration, when it builds one. *)
Definition index_adapter (c : Config) : TypeScriptCompiler :=
  match IndexJs.constructor (host := Sample.node) (Some c) with
  | inr self => self
  | inl _ => plain_adapter
  end.

Definition part_adapter (c : Config) : TypeScriptCompiler :=
  match Part000.constructor (host := Sample.node) (Some c) with
  | inr self => self
  | inl _ => plain_adapter
  end.

(** [ignoreErrors: true] and [ignoreErrors: [1005]] in the plugin options. *)
Definition ignore_all_options : Options := <["ignoreErrors" := VBool true]> ∅.

Definition ignore_1005_options : Options :=
  <["ignoreErrors" := VArray (map (fun z => VNumber (Int z)) [1005])]> ∅.

(** A list of offsets in ascending order. *)
Fixpoint ascending (l : list Z) : bool :=
  match l with
  | [] => true
  | x :: rest =>
      match rest with
      | [] => true
      | y :: _ => (x <=? y) && ascending rest
      end
  end.

(** A line-start table that covers an offset: not empty, ascending, and its
    first line starts at or before the offset. *)
Definition line_start_table (lm : list Z) (offset : Z) : bool :=
  match lm with
  | [] => false
  | first :: _ => (first <=? offset) && ascending lm
  end.

(** A configuration without [paths]. *)
Definition no_paths_config : Config :=
  {| plugins := Some {| typescript := None; brunchTypescript := None |};
     paths := None;
     sourceMaps := VBool false;
     conventions := Some {| vendor := VRegExp "vendor/" |} |}.

(** A configuration whose [paths] has no [root]. *)
Definition no_root_config : Config :=
  {| plugins := Some {| typescript := None; brunchTypescript := None |};
     paths := Some {| root := None |};
     sourceMaps := VBool false;
     conventions := Some {| vendor := VRegExp "vendor/" |} |}.

(** The options a construction from no option at all ends with. *)
Definition default_options : Options :=
  <["module" := VNumber (Int 1)]>
  (<["target" := VNumber (Int 1)]>
  (<["jsx" := VNumber (Int 1)]>
  (<["emitDecoratorMetadata" := VBool true]>
  (<["experimentalDecorators" := VBool true]>
  (<["noEmitOnError" := VBool false]>
  (<["sourceMap" := VBool false]> ∅)))))).

(** A project directory without a tsconfig.json. *)
Definition no_tsconfig_config : Config :=
  {| plugins := Some {| typescript := None; brunchTypescript := None |};
     paths := Some {| root := Some "/nowhere" |};
     sourceMaps := VBool false;
     conventions := Some {| vendor := VRegExp "vendor/" |} |}.

(** [self], with another [targetExtension]. *)
Definition with_targetExtension (ext : option string) (self : TypeScriptCompiler)
  : TypeScriptCompiler :=
  {| options := options self; isIgnored := isIgnored self; pattern := pattern self;
     ignoreAllErrors := ignoreAllErrors self; ignoreErrors := ignoreErrors self;
     targetExtension := ext |}.

(** A configuration that sets the plugin options under [plugins.typescript]. *)
Definition typescript_key_config : Config :=
  {| plugins := Some {| typescript := Some ignore_all_options; brunchTypescript := None |};
     paths := Some {| root := Some "/app" |};
     sourceMaps := VBool false;
     conventions := Some {| vendor := VRegExp "vendor/" |} |}.

(** A diagnostic at the very start of the second line of the sample file. *)
Definition second_line_diagnostic : Diagnostic :=
  {| code := 1128; messageText := "Declaration or statement expected.";
     file := Some Sample.source_file; start := 12 |}.

(** A diagnostic in a file whose line map is the empty array. *)
Definition empty_map_diagnostic : Diagnostic :=
  {| code := 1128; messageText := "Declaration or statement expected.";
     file := Some {| lineMap := Some [] |}; start := 3 |}.

(** A compiler that emits a source map no JSON parser reads. *)
Definition bad_map_transpile (input : string) (o : TranspileOptions) : result TranspileOutput :=
  inr {| outputText := input; diagnostics := []; sourceMapText := Some "not json" |}.

(** The sample host with that compiler in place of its own. *)
Definition bad_map_host : Host := {|
  toUpperCase := Sample.ascii_upper;
  StringToNumber := Sample.decimal_to_number;
  ts_ModuleKind := Sample.ModuleKind;
  ts_ScriptTarget := Sample.ScriptTarget;
  ts_JsxEmit := Sample.JsxEmit;
  ts_transpileModule := bad_map_transpile;
  anymatch := Sample.matcher;
  path_resolve := Sample.resolve_path;
  require_ := Sample.require_json;
  JSON_parse := Sample.parse;
  JSON_stringify := Sample.stringify
|}.

(** A file the sample compiler throws on. *)
Definition throwing_file : FileRecord := {| path := "app/t.ts"; data := "throw" |}.

(** An adapter with source maps on. *)
Definition mapping_adapter : TypeScriptCompiler :=
  {| options := <["sourceMap" := VBool true]> ∅;
     isIgnored := String.prefix "vendor/";
     pattern := None;
     ignoreAllErrors := None;
     ignoreErrors := None;
     targetExtension := None |}.

(** [config.paths && config.paths.root] *)
Definition index_config_root (c : Config) : option string :=
  match paths c with
  | Some p => root p
  | None => None
  end.

(** The value of an option once the plugin options are laid over those of
    tsconfig.json. *)
Definition merged_option (plugin_options tsconfig_options : Options) (k : string) : value :=
  match plugin_options !! k with
  | Some v => v
  | None => get tsconfig_options k
  end.

(** The keys the constructor treats in a way of its own. *)
Definition special_keys : list string :=
  normalized_keys ++ ["pattern"; "ignoreErrors"; "ignore"].

(** A truthy [ignoreErrors] that [new Set] cannot iterate: a number, a plain
    object, a regular expression. *)
Definition not_iterable (v : value) : Prop :=
  match v with
  | VNumber (Int z) => z <> 0
  | VObject _ | VRegExp _ => True
  | _ => False
  end.

(** An [ignoreErrors] none of whose members is a number: a non-empty string,
    or an array without numbers (codes written as strings, say). *)
Definition no_numeric_member (v : value) : Prop :=
  match v with
  | VString s => s <> ""
  | VArray l => forall x, In x l -> match x with VNumber (Int _) => False | _ => True end
  | _ => False
  end.

(** [c], with other plugin options. *)
Definition with_plugins (c : Config) (p : Plugins) : Config :=
  {| plugins := Some p; paths := paths c; sourceMaps := sourceMaps c;
     conventions := conventions c |}.

(** Plugin options that write the codes to ignore as strings. *)
Definition string_codes_options : Options :=
  <["ignoreErrors" := VArray [VString "1005"; VString "5023"]]> ∅.

(** Plugin options with a single code in place of a list. *)
Definition single_code_options : Options := <["ignoreErrors" := VNumber (Int 1005)]> ∅.

(** Plugin options that switch the filter, the pattern and one decorator
    option off, set an ordinary compiler option, and try to set the three
    options the constructor forces. *)
Definition assorted_options : Options :=
  <["ignoreErrors" := VBool false]>
  (<["pattern" := VString ""]>
  (<["emitDecoratorMetadata" := VBool false]>
  (<["experimentalDecorators" := VNumber (Int 0)]>
  (<["strict" := VBool true]>
  (<["sourceMap" := VBool true]>
  (<["noEmitOnError" := VBool true]>
  (<["moduleResolution" := VString "node"]> ∅))))))).

(** Plugin options with a pattern and an ignore matcher of their own. *)
Definition custom_options : Options :=
  <["pattern" := VRegExp "\.mts$"]> (<["ignore" := VString "lib/"]> ∅).

(** Plugin options asking for JSX to be preserved, spelled as the compiler's
    enumeration spells it. *)
Definition preserve_options : Options := <["jsx" := VString "Preserve"]> ∅.

(** A project whose tsconfig.json has no [compilerOptions]. *)
Definition bare_config : Config :=
  {| plugins := Some {| typescript := None; brunchTypescript := None |};
     paths := Some {| root := Some "/bare" |};
     sourceMaps := VBool false;
     conventions := Some {| vendor := VRegExp "vendor/" |} |}.

(** Both plugin keys set, to different options. *)
Definition both_keys_config : Config :=
  {| plugins := Some {| typescript := Some ignore_1005_options;
                        brunchTypescript := Some ignore_all_options |};
     paths := Some {| root := Some "/app" |};
     sourceMaps := VBool false;
     conventions := Some {| vendor := VRegExp "vendor/" |} |}.

(** The [compilerOptions] of the sample project's tsconfig.json. *)
Definition sample_tsconfig : Options := <["target" := VString "es2015"]> ∅.

(** A host whose every tsconfig.json sets [ignoreErrors: true] and a pattern. *)
Definition filter_tsconfig : Options :=
  <["ignoreErrors" := VBool true]> (<["pattern" := VRegExp "\.mts$"]> ∅).

Definition filter_project_host : Host := {|
  toUpperCase := Sample.ascii_upper;
  StringToNumber := Sample.decimal_to_number;
  ts_ModuleKind := Sample.ModuleKind;
  ts_ScriptTarget := Sample.ScriptTarget;
  ts_JsxEmit := Sample.JsxEmit;
  ts_transpileModule := Sample.transpile;
  anymatch := Sample.matcher;
  path_resolve := Sample.resolve_path;
  require_ := fun _ => inr {| tsconfig_compilerOptions := Some filter_tsconfig |};
  JSON_parse := Sample.parse;
  JSON_stringify := Sample.stringify
|}.

(** The adapter and the cache a first construction leaves, on that host. *)
Definition first_construction : result TypeScriptCompiler * Cached.ModuleCache :=
  Cached.constructor (host := filter_project_host) (Some (Sample.config ∅ false)) ∅.

Definition first_adapter : TypeScriptCompiler :=
  match fst first_construction with
  | inr self => self
  | inl _ => plain_adapter
  end.

(** The adapter a second construction builds, from the cache the first left. *)
Definition second_adapter : TypeScriptCompiler :=
  match fst (Cached.constructor (host := filter_project_host)
               (Some (Sample.config ∅ false)) (snd first_construction)) with
  | inr self => self
  | inl _ => plain_adapter
  end.

(** * What [compile] computes *)

Ltac unfold_monad :=
  unfold mbind, mret, M_bind, M_ret, result_bind, result_ret, try_catch, throw, gets,
    modify, lift in *.

Section CompileFacts.
Context {host : Host}.

Lemma IndexJs_compile_ignored (w : World) (params : FileRecord) :
  isIgnored (this w) (path params) = true ->
  IndexJs.compile params w = (inr (IndexJs.Fulfilled (PassThrough params)), w).
Proof.
  intros Hig. unfold IndexJs.compile. unfold_monad. cbn. now rewrite Hig.
Qed.

Lemma IndexJs_compile_run (w : World) (params : FileRecord) :
  isIgnored (this w) (path params) = false ->
  IndexJs.compile params w =
  (inr match ts_transpileModule (data params) (tsOptions_of (this w) params) with
       | inl e => IndexJs.Rejected e
       | inr compiled =>
           promise_of (outcome_of (IndexJs.reportable_diagnostics (this w) compiled)
                                  compiled (path params))
       end,
   log_call (data params) (tsOptions_of (this w) params) w).
Proof.
  intros Hig. unfold IndexJs.compile. unfold_monad. cbn. rewrite Hig.
  unfold IndexJs.new_Promise, IndexJs.executor, IndexJs.in_world,
    IndexJs.call_transpileModule, IndexJs.reject, IndexJs.resolve.
  unfold_monad. fold (tsOptions_of (this w) params). cbn.
  destruct (ts_transpileModule (data params) (tsOptions_of (this w) params))
    as [e | compiled]; cbn; [reflexivity |].
  unfold outcome_of.
  destruct (IndexJs.reportable_diagnostics (this w) compiled) as [| d ds]; cbn.
  - destruct (build_result compiled (path params)); reflexivity.
  - destruct (build_result compiled (path params)); reflexivity.
Qed.

Section Throwing.
Variable transpileModule : string -> TranspileOptions -> result TranspileOutput.

Lemma Part000_compile_ignored (w : World) (file : FileRecord) :
  isIgnored (this w) (path file) = true ->
  Part000.compile transpileModule file w = (inr (PassThrough file), w).
Proof.
  intros Hig. unfold Part000.compile. unfold_monad. cbn. now rewrite Hig.
Qed.

Lemma Part000_compile_run (w : World) (file : FileRecord) :
  isIgnored (this w) (path file) = false ->
  Part000.compile transpileModule file w =
  (match transpileModule (data file) (tsOptions_of (this w) file) with
   | inl e => inl e
   | inr compiled =>
       outcome_of (own_filter (this w) (diagnostics compiled)) compiled (path file)
   end,
   log_call (data file) (tsOptions_of (this w) file) w).
Proof.
  intros Hig. unfold Part000.compile. unfold_monad. cbn. rewrite Hig.
  unfold Part000.call_transpileModule. fold (tsOptions_of (this w) file).
  destruct (transpileModule (data file) (tsOptions_of (this w) file))
    as [e | compiled]; cbn; [reflexivity |].
  unfold outcome_of.
  destruct (own_filter (this w) (diagnostics compiled)) as [| d ds]; cbn.
  - destruct (build_result compiled (path file)); reflexivity.
  - reflexivity.
Qed.

End Throwing.
End CompileFacts.

(** * The properties of the specification *)

Lemma ignoredErrors_elem (c : Z) :
  c ∈ ignoredErrors <-> c = 1208 \/ c = 2307 \/ c = 2304 \/ c = 2322 \/ c = 2339.
Proof.
  unfold ignoredErrors. rewrite !elem_of_union, !elem_of_singleton. tauto.
Qed.

Lemma ignoredErrors_has_true (c : Z) : ignoredErrors_has c = true <-> c ∈ ignoredErrors.
Proof. unfold ignoredErrors_has. apply bool_decide_eq_true. Qed.

Lemma own_filter_In (self : TypeScriptCompiler) (diag : list Diagnostic)
    (d : Diagnostic) :
  In d (own_filter self diag) -> In d diag.
Proof.
  unfold own_filter.
  destruct (ignoreAllErrors self) as [[|] |]; [intros [] | |];
    (destruct (ignoreErrors self); [rewrite List.filter_In; tauto | tauto]).
Qed.

Lemma reportable_not_in_fixed_set (self : TypeScriptCompiler)
    (compiled : TranspileOutput) (d : Diagnostic) :
  In d (IndexJs.reportable_diagnostics self compiled) ->
  In d (diagnostics compiled) /\ (code d ∉ ignoredErrors).
Proof.
  unfold IndexJs.reportable_diagnostics. intros Hd.
  apply own_filter_In in Hd. apply List.filter_In in Hd as [Hin Hcode].
  split; [exact Hin |].
  intros Hmem. apply ignoredErrors_has_true in Hmem. rewrite Hmem in Hcode. discriminate.
Qed.

Lemma filter_all_fixed (l : list Diagnostic) :
  (forall d, In d l -> code d ∈ ignoredErrors) ->
  List.filter (fun err => negb (ignoredErrors_has (code err))) l = [].
Proof.
  induction l as [| d l IH]; intros Hall; [reflexivity |].
  cbn. assert (Hd : ignoredErrors_has (code d) = true).
  { apply ignoredErrors_has_true, Hall. now left. }
  rewrite Hd. cbn. apply IH. intros d' Hd'. apply Hall. now right.
Qed.

Lemma own_filter_nil (self : TypeScriptCompiler) : own_filter self [] = [].
Proof.
  unfold own_filter. destruct (ignoreAllErrors self) as [[|] |]; [reflexivity | |];
    destruct (ignoreErrors self); reflexivity.
Qed.

(** C1: a file whose path the ignore predicate matches comes back as the very
    object that was passed in, from both variants of [compile], and the store is
    left as it was: in particular no call to the transpile operation is
    recorded. *)
Theorem C1_ignored_file_passes_through {host : Host}
    (transpileModule : string -> TranspileOptions -> result TranspileOutput)
    (w : World) (params : FileRecord) :
  isIgnored (this w) (path params) = true ->
  IndexJs.compile params w = (inr (IndexJs.Fulfilled (PassThrough params)), w)
  /\ Part000.compile transpileModule params w = (inr (PassThrough params), w)
  /\ transpile_calls (snd (IndexJs.compile params w)) = transpile_calls w
  /\ transpile_calls (snd (Part000.compile transpileModule params w)) = transpile_calls w.
Proof.
  intros Hig.
  rewrite (IndexJs_compile_ignored w params Hig).
  rewrite (Part000_compile_ignored transpileModule w params Hig).
  repeat split.
Qed.

(** A file that is not ignored costs exactly one call of the transpile
    operation, on the file's text and the adapter's options. *)
Lemma compile_calls_transpile_once {host : Host}
    (transpileModule : string -> TranspileOptions -> result TranspileOutput)
    (w : World) (params : FileRecord) :
  isIgnored (this w) (path params) = false ->
  transpile_calls (snd (IndexJs.compile params w)) =
    transpile_calls w ++ [(data params, tsOptions_of (this w) params)]
  /\ transpile_calls (snd (Part000.compile transpileModule params w)) =
    transpile_calls w ++ [(data params, tsOptions_of (this w) params)].
Proof.
  intros Hig.
  rewrite (IndexJs_compile_run w params Hig).
  rewrite (Part000_compile_run transpileModule w params Hig).
  split; reflexivity.
Qed.

(** C2: in index.js a diagnostic whose code is in the fixed ignore-set is never
    among the diagnostics [compile] reports, whatever the adapter's own filter
    is; the promise is settled from the reportable diagnostics alone, so when
    every diagnostic of a call is in the fixed set the call takes the success
    path; and with no [ignoreErrors] configured the reportable diagnostics are
    the ones outside the fixed set. *)
Theorem C2_fixed_ignore_set_never_fails {host : Host}
    (w : World) (params : FileRecord) (compiled : TranspileOutput) :
  isIgnored (this w) (path params) = false ->
  ts_transpileModule (data params) (tsOptions_of (this w) params) = inr compiled ->
  (forall d, In d (IndexJs.reportable_diagnostics (this w) compiled) ->
             In d (diagnostics compiled) /\ (code d ∉ ignoredErrors))
  /\ fst (IndexJs.compile params w) =
       inr (promise_of (outcome_of (IndexJs.reportable_diagnostics (this w) compiled)
                                   compiled (path params)))
  /\ ((forall d, In d (diagnostics compiled) -> code d ∈ ignoredErrors) ->
      fst (IndexJs.compile params w) =
        inr (promise_of (outcome_of [] compiled (path params))))
  /\ (ignoreAllErrors (this w) = None -> ignoreErrors (this w) = None ->
      IndexJs.reportable_diagnostics (this w) compiled =
        List.filter (fun err => negb (ignoredErrors_has (code err))) (diagnostics compiled)).
Proof.
  intros Hig Hts.
  assert (Hrun := IndexJs_compile_run w params Hig). rewrite Hts in Hrun.
  split; [| split; [| split]].
  - intros d. apply reportable_not_in_fixed_set.
  - now rewrite Hrun.
  - intros Hall. rewrite Hrun. cbn.
    unfold IndexJs.reportable_diagnostics.
    now rewrite (filter_all_fixed _ Hall), own_filter_nil.
  - intros Hall Hset. unfold IndexJs.reportable_diagnostics, own_filter.
    now rewrite Hall, Hset.
Qed.

(** ** Facts about construction *)

Section ConstructionFacts.
Context {host : Host}.

Lemma overlay_lookup (plugin_options this_options : Options) (k : string) :
  overlay plugin_options this_options !! k =
  if String.eqb k "sourceMap" || String.eqb k "ignore" then this_options !! k
  else match plugin_options !! k with
       | Some v => Some v
       | None => this_options !! k
       end.
Proof.
  unfold overlay, Options in *.
  apply (map_fold_weak_ind (fun r (m : gmap string value) =>
    r !! k = if String.eqb k "sourceMap" || String.eqb k "ignore" then this_options !! k
             else match m !! k with Some v => Some v | None => this_options !! k end)).
  - rewrite lookup_empty. now destruct (String.eqb k "sourceMap" || String.eqb k "ignore").
  - intros i x m r Hi IH.
    destruct (decide (i = k)) as [-> | Hne].
    + destruct (String.eqb k "sourceMap" || String.eqb k "ignore") eqn:Hskip.
      * exact IH.
      * now rewrite !lookup_insert_eq.
    + destruct (String.eqb i "sourceMap" || String.eqb i "ignore").
      * rewrite IH. now rewrite (lookup_insert_ne m i k x Hne).
      * rewrite (lookup_insert_ne r i k x Hne), IH.
        now rewrite (lookup_insert_ne m i k x Hne).
Qed.

Lemma normalize_lookup (flag : value) (o o' : Options) (k : string) :
  normalize flag o = inr o' ->
  ~ In k normalized_keys ->
  o' !! k = o !! k.
Proof.
  unfold normalize, Options in *. unfold_monad. intros Hn Hk.
  destruct (resolveEnum (get o "module") ts_ModuleKind) as [e | m]; [discriminate |].
  destruct (resolveEnum _ ts_ScriptTarget) as [e | t]; [discriminate |].
  destruct (resolveEnum _ ts_JsxEmit) as [e | j]; [discriminate |].
  injection Hn as <-.
  repeat first
    [ rewrite lookup_insert_ne by (intros <-; apply Hk; cbn; tauto)
    | rewrite lookup_delete_ne by (intros <-; apply Hk; cbn; tauto) ].
  reflexivity.
Qed.

Lemma get_delete_pattern (o : Options) :
  get (delete "pattern" o) "ignoreErrors" = get o "ignoreErrors".
Proof. unfold get, Options in *. now rewrite lookup_delete_ne. Qed.

(** What [finish] makes of the [ignoreErrors] option. *)
Lemma finish_ignoreErrors (o : Options) (ignored : string -> bool) (ext : option string)
    (self : TypeScriptCompiler) :
  finish o ignored ext = inr self ->
  isIgnored self = ignored
  /\ targetExtension self = ext
  /\ match get o "ignoreErrors" with
     | VBool true => ignoreAllErrors self = Some true /\ ignoreErrors self = None
     | v =>
         ignoreAllErrors self = None
         /\ if truthy v then exists s, new_Set v = inr s /\ ignoreErrors self = Some s
            else ignoreErrors self = None
     end.
Proof.
  unfold finish. unfold_monad.
  destruct (truthy (get o "pattern")).
  - rewrite get_delete_pattern.
    destruct (get o "ignoreErrors") as [| | [|] | [| z] | s | l | m | r] eqn:Hie; cbn;
      try (intros [= <-]; cbn; repeat split; reflexivity).
    + destruct (negb (z =? 0)); intros [= <-]; cbn; repeat split; eauto.
    + destruct (negb (s =? ""))%string; intros [= <-]; cbn; repeat split; eauto.
    + intros [= <-]; cbn; repeat split; eauto.
  - destruct (get o "ignoreErrors") as [| | [|] | [| z] | s | l | m | r] eqn:Hie; cbn;
      try (intros [= <-]; cbn; repeat split; reflexivity).
    + destruct (negb (z =? 0)); intros [= <-]; cbn; repeat split; eauto.
    + destruct (negb (s =? ""))%string; intros [= <-]; cbn; repeat split; eauto.
    + intros [= <-]; cbn; repeat split; eauto.
Qed.

(** The steps a successful construction of index.js went through. *)
Lemma IndexJs_constructor_inv (c : Config) (self : TypeScriptCompiler) :
  IndexJs.constructor (Some c) = inr self ->
  exists t o ignored,
    IndexJs.getTsconfig (match paths c with Some p => root p | None => None end) = Some t
    /\ normalize (sourceMaps c) (overlay (index_plugin_options c) t) = inr o
    /\ build_isIgnored (index_plugin_options c) c = inr ignored
    /\ finish o ignored None = inr self.
Proof.
  unfold IndexJs.constructor. cbn. fold (index_plugin_options c).
  destruct (IndexJs.getTsconfig _) as [t |]; [| discriminate].
  unfold_monad.
  destruct (normalize (sourceMaps c) (overlay (index_plugin_options c) t)) as [e | o] eqn:Hn;
    [discriminate |].
  destruct (build_isIgnored (index_plugin_options c) c) as [e | ignored] eqn:Hb;
    [discriminate |].
  intros Hf. exists t, o, ignored. repeat split; assumption || reflexivity.
Qed.

(** The steps a successful construction of part_000 went through. *)
Lemma Part000_constructor_inv (c : Config) (self : TypeScriptCompiler) :
  Part000.constructor (Some c) = inr self ->
  exists p t o ignored ext,
    plugins c = Some p
    /\ Part000.getTSconfig c = inr (Some t)
    /\ normalize (sourceMaps c) (overlay (part_plugin_options p) t) = inr o
    /\ build_isIgnored (part_plugin_options p) c = inr ignored
    /\ finish o ignored (Some ext) = inr self.
Proof.
  unfold Part000.constructor.
  destruct (plugins c) as [p |]; [| discriminate].
  fold (part_plugin_options p). unfold_monad.
  destruct (Part000.getTSconfig c) as [e | [t |]]; [discriminate | | discriminate].
  destruct (normalize (sourceMaps c) (overlay (part_plugin_options p) t)) as [e | o] eqn:Hn;
    [discriminate |].
  destruct (build_isIgnored (part_plugin_options p) c) as [e | ignored] eqn:Hb;
    [discriminate |].
  intros Hf. eexists p, t, o, ignored, _. repeat split; try reflexivity; try eassumption.
Qed.

Lemma build_isIgnored_conventions (plugin_options : Options) (c : Config)
    (ignored : string -> bool) :
  build_isIgnored plugin_options c = inr ignored ->
  truthy (get plugin_options "ignore") = false ->
  conventions c <> None.
Proof.
  unfold build_isIgnored. intros Hb Hno. rewrite Hno in Hb.
  destruct (conventions c); [discriminate | discriminate Hb].
Qed.

End ConstructionFacts.

Lemma C1_witness :
  isIgnored plain_adapter (path vendor_file) = true
  /\ IndexJs.compile (host := Sample.node) vendor_file (Sample.world plain_adapter) =
       (inr (IndexJs.Fulfilled (PassThrough vendor_file)), Sample.world plain_adapter).
Proof.
  split; [reflexivity |].
  apply (C1_ignored_file_passes_through (host := Sample.node) Sample.transpile
           (Sample.world plain_adapter) vendor_file).
  reflexivity.
Defined.

Lemma C2_witness :
  ts_transpileModule (Host := Sample.node) (data import_file)
      (tsOptions_of plain_adapter import_file) = inr (sample_output plain_adapter import_file)
  /\ (forall d, In d (diagnostics (sample_output plain_adapter import_file)) ->
                code d ∈ ignoredErrors)
  /\ fst (IndexJs.compile (host := Sample.node) import_file (Sample.world plain_adapter)) =
       inr (promise_of (outcome_of (host := Sample.node) []
              (sample_output plain_adapter import_file) (path import_file))).
Proof.
  assert (Hall : forall d, In d (diagnostics (sample_output plain_adapter import_file)) ->
                           code d ∈ ignoredErrors).
  { intros d [<- | []]. apply ignoredErrors_elem. cbn. tauto. }
  split; [reflexivity | split; [exact Hall |]].
  apply (C2_fixed_ignore_set_never_fails (host := Sample.node)
           (Sample.world plain_adapter) import_file
           (sample_output plain_adapter import_file) eq_refl eq_refl).
  exact Hall.
Defined.

Lemma Set_has_codes (codes : list Z) (c : Z) :
  Set_has (map (fun z => VNumber (Int z)) codes) c = true <-> In c codes.
Proof.
  unfold Set_has. rewrite existsb_exists. split.
  - intros [v [Hv Hc]]. apply in_map_iff in Hv as [z [<- Hz]].
    apply Z.eqb_eq in Hc. now subst.
  - intros Hc. exists (VNumber (Int c)). split; [| apply Z.eqb_refl].
    apply in_map_iff. now exists c.
Qed.

(** The [ignoreErrors] that [finish] reads is the one of the merged options:
    that of the plugin options when they have one, else that of the options
    [getTsconfig] returned. *)
Lemma index_merged_ignoreErrors {host : Host} (c : Config) (t : Options)
    (self : TypeScriptCompiler) :
  IndexJs.getTsconfig (index_config_root c) = Some t ->
  IndexJs.constructor (Some c) = inr self ->
  exists o ignored,
    get o "ignoreErrors" = merged_option (index_plugin_options c) t "ignoreErrors"
    /\ finish o ignored None = inr self.
Proof.
  intros Ht Hc.
  destruct (IndexJs_constructor_inv c self Hc) as (t' & o & ignored & Ht' & Hn & _ & Hf).
  unfold index_config_root in Ht. rewrite Ht in Ht'. injection Ht' as <-.
  exists o, ignored. split; [| exact Hf].
  unfold get, merged_option. rewrite (normalize_lookup _ _ _ "ignoreErrors" Hn).
  - rewrite overlay_lookup. cbn.
    now destruct (index_plugin_options c !! "ignoreErrors").
  - cbn. intros H. repeat (destruct H as [H | H]; [discriminate H |]). exact H.
Qed.

(** C3: in index.js the [ignoreErrors] option the constructor acts on is the
    one of [this.options], the plugin options laid over the options
    [getTsconfig] returned, whichever of the two it comes from.  When it is
    [true] no diagnostic is reportable, whatever its code; when it is a list of
    numeric codes, the reportable diagnostics are exactly those whose code is
    neither in the fixed set nor in the list; and [compile] rejects with the
    joined messages as soon as one diagnostic is reportable, and takes the
    success path when none is. *)
Theorem C3_ignoreErrors_option {host : Host} (c : Config) (t : Options)
    (self : TypeScriptCompiler) :
  IndexJs.getTsconfig (index_config_root c) = Some t ->
  IndexJs.constructor (Some c) = inr self ->
  (merged_option (index_plugin_options c) t "ignoreErrors" = VBool true ->
   forall compiled, IndexJs.reportable_diagnostics self compiled = [])
  /\ (forall codes,
        merged_option (index_plugin_options c) t "ignoreErrors" =
          VArray (map (fun z => VNumber (Int z)) codes) ->
        forall compiled d,
          In d (IndexJs.reportable_diagnostics self compiled) <->
          In d (diagnostics compiled) /\ (code d ∉ ignoredErrors) /\ ~ In (code d) codes)
  /\ (forall w params compiled,
        this w = self ->
        isIgnored self (path params) = false ->
        ts_transpileModule (data params) (tsOptions_of self params) = inr compiled ->
        fst (IndexJs.compile params w) =
          inr match IndexJs.reportable_diagnostics self compiled with
              | [] => promise_of (outcome_of [] compiled (path params))
              | d :: ds => IndexJs.Rejected (ThrownString (join_messages (d :: ds)))
              end).
Proof.
  intros Ht Hc.
  destruct (index_merged_ignoreErrors c t self Ht Hc) as (o & ignored & Hget & Hf).
  apply finish_ignoreErrors in Hf as (_ & _ & Hie). rewrite Hget in Hie.
  split; [| split].
  - intros Htrue compiled. rewrite Htrue in Hie. destruct Hie as [Hall _].
    unfold IndexJs.reportable_diagnostics, own_filter. now rewrite Hall.
  - intros codes Hlist compiled d. rewrite Hlist in Hie.
    cbn in Hie. destruct Hie as [Hall [s [[= <-] Hset]]].
    unfold IndexJs.reportable_diagnostics, own_filter. rewrite Hall, Hset.
    rewrite !List.filter_In, !negb_true_iff.
    rewrite <- !not_true_iff_false, ignoredErrors_has_true, Set_has_codes. tauto.
  - intros w params compiled <- Hig Hts.
    rewrite (IndexJs_compile_run w params Hig), Hts. cbn.
    now destruct (IndexJs.reportable_diagnostics (this w) compiled).
Qed.

(** [ignoreErrors: true] from the plugin options, over a tsconfig.json without
    it; and from tsconfig.json, under plugin options without it. *)
Lemma C3_witness :
  (merged_option ignore_all_options sample_tsconfig "ignoreErrors" = VBool true
   /\ IndexJs.constructor (host := Sample.node)
        (Some (Sample.config ignore_all_options false)) =
      inr (index_adapter (Sample.config ignore_all_options false))
   /\ forall compiled,
        IndexJs.reportable_diagnostics
          (index_adapter (Sample.config ignore_all_options false)) compiled = [])
  /\ (merged_option ∅ filter_tsconfig "ignoreErrors" = VBool true
      /\ IndexJs.constructor (host := filter_project_host) (Some (Sample.config ∅ false)) =
         inr first_adapter
      /\ forall compiled, IndexJs.reportable_diagnostics first_adapter compiled = []).
Proof.
  assert (Hplugin : IndexJs.constructor (host := Sample.node)
                      (Some (Sample.config ignore_all_options false)) =
                    inr (index_adapter (Sample.config ignore_all_options false)))
    by (vm_compute; reflexivity).
  assert (Htsconfig : IndexJs.constructor (host := filter_project_host)
                        (Some (Sample.config ∅ false)) = inr first_adapter)
    by (vm_compute; reflexivity).
  split.
  - split; [reflexivity |]. split; [exact Hplugin |].
    apply (proj1 (C3_ignoreErrors_option (host := Sample.node)
                    (Sample.config ignore_all_options false) sample_tsconfig _
                    eq_refl Hplugin)).
    reflexivity.
  - split; [reflexivity |]. split; [exact Htsconfig |].
    apply (proj1 (C3_ignoreErrors_option (host := filter_project_host)
                    (Sample.config ∅ false) filter_tsconfig _ eq_refl Htsconfig)).
    reflexivity.
Defined.

(** With [ignoreErrors: [1005]] the file with three diagnostics is rejected
    for the one that is in neither set. *)
Example ignore_1005_rejects :
  fst (IndexJs.compile (host := Sample.node) broken_file
         (Sample.world (index_adapter (Sample.config ignore_1005_options false)))) =
  inr (IndexJs.Rejected
         (ThrownString "Error 5023: Unknown compiler option. (No line map)")).
Proof. vm_compute. reflexivity. Qed.

(** ** The result object *)

Section ResultFacts.
Context {host : Host}.

(** A non-empty output text comes back followed by one newline. *)
Lemma build_result_data (compiled : TranspileOutput) (p : string) (r : CompileResult) :
  outputText compiled <> "" ->
  build_result compiled p = inr r ->
  result_data r = outputText compiled +:+ newline.
Proof.
  intros Hne. apply String.eqb_neq in Hne.
  unfold build_result, result_text. rewrite Hne.
  destruct (sourceMapText compiled) as [text |]; [| now intros [= <-]].
  destruct (String.eqb text ""); [now intros [= <-] |].
  destruct (JSON_parse text) as [e | rawMap]; [discriminate |].
  destruct (set_sources_0 rawMap p); [discriminate | now intros [= <-]].
Qed.

(** An empty output text does not: the result object is printed in its place. *)
Lemma build_result_empty_output (compiled : TranspileOutput) (p : string) (r : CompileResult) :
  outputText compiled = "" ->
  build_result compiled p = inr r ->
  result_data r = "[object Object]" +:+ newline.
Proof.
  intros He. unfold build_result, result_text. rewrite He. cbn.
  destruct (sourceMapText compiled) as [text |]; [| now intros [= <-]].
  destruct (String.eqb text ""); [now intros [= <-] |].
  destruct (JSON_parse text) as [e | rawMap]; [discriminate |].
  destruct (set_sources_0 rawMap p); [discriminate | now intros [= <-]].
Qed.

(** No source map from the compiler, no [map] field. *)
Lemma build_result_no_map (compiled : TranspileOutput) (p : string) :
  sourceMapText compiled = None ->
  build_result compiled p = inr {| result_data := result_text compiled; result_map := None |}.
Proof. intros Hm. unfold build_result. now rewrite Hm. Qed.

(** The parsed map has a [sources] array: its first entry becomes the path,
    nothing else changes, and the map is printed again. *)
Lemma build_result_map (compiled : TranspileOutput) (p text : string)
    (m : gmap string value) (l : list value) :
  sourceMapText compiled = Some text ->
  text <> "" ->
  JSON_parse text = inr (VObject m) ->
  m !! "sources" = Some (VArray l) ->
  let rawMap' := VObject (<["sources" := VArray (array_set_0 l (VString p))]> m) in
  build_result compiled p =
    inr {| result_data := result_text compiled;
           result_map := Some (JSON_stringify rawMap') |}
  /\ sources_0 rawMap' = Some (VString p).
Proof.
  intros Hm Hne Hparse Hs. apply String.eqb_neq in Hne. cbn. split.
  - unfold build_result. rewrite Hm, Hne, Hparse. cbn. now rewrite Hs.
  - rewrite lookup_insert_eq. now destruct l.
Qed.

(** Without reportable diagnostics and without a source map, the promise of
    index.js is fulfilled with the result text alone; the text is the output
    text and a newline when the output text is not empty. *)
Lemma IndexJs_compile_success (w : World) (params : FileRecord) (compiled : TranspileOutput) :
  isIgnored (this w) (path params) = false ->
  ts_transpileModule (data params) (tsOptions_of (this w) params) = inr compiled ->
  IndexJs.reportable_diagnostics (this w) compiled = [] ->
  sourceMapText compiled = None ->
  fst (IndexJs.compile params w) =
    inr (IndexJs.Fulfilled
           (Compiled {| result_data := result_text compiled; result_map := None |}))
  /\ (outputText compiled <> "" -> result_text compiled = outputText compiled +:+ newline)
  /\ (outputText compiled = "" -> result_text compiled = "[object Object]" +:+ newline).
Proof.
  intros Hig Hts Hrep Hmap. split; [| split].
  - rewrite (IndexJs_compile_run w params Hig), Hts, Hrep. cbn.
    now rewrite (build_result_no_map compiled (path params) Hmap).
  - intros Hne. apply String.eqb_neq in Hne. unfold result_text. now rewrite Hne.
  - intros He. unfold result_text. now rewrite He.
Qed.

End ResultFacts.

(** C4: a file the compiler emits nothing for, with no diagnostic and source
    maps off.  The compiler's output text is the empty string, and both variants
    of [compile] answer with the data "[object Object]" and a newline, not with
    the output text and a newline. *)
Theorem C4_empty_output_prints_object :
  Sample.transpile (data empty_file) (tsOptions_of plain_adapter empty_file) =
    inr {| outputText := ""; diagnostics := []; sourceMapText := None |}
  /\ fst (IndexJs.compile (host := Sample.node) empty_file (Sample.world plain_adapter)) =
       inr (IndexJs.Fulfilled
              (Compiled {| result_data := "[object Object]" +:+ newline;
                           result_map := None |}))
  /\ fst (Part000.compile (host := Sample.node) Sample.transpile empty_file
            (Sample.world plain_adapter)) =
       inr (Compiled {| result_data := "[object Object]" +:+ newline; result_map := None |})
  /\ "[object Object]" +:+ newline <> "" +:+ newline.
Proof.
  repeat split; try reflexivity. discriminate.
Qed.

(** ** Positions *)

Lemma ascending_head (x : Z) (l : list Z) (j : nat) (b : Z) :
  ascending (x :: l) = true -> (x :: l) !! j = Some b -> x <= b.
Proof.
  revert x j. induction l as [| y l IH]; intros x j Hasc Hj.
  - destruct j as [| j]; cbn in Hj; [injection Hj as <-; lia | discriminate].
  - destruct j as [| j]; cbn in Hj; [injection Hj as <-; lia |].
    cbn [ascending] in Hasc. apply andb_true_iff in Hasc as [Hxy Hrest].
    apply Z.leb_le in Hxy. specialize (IH y j Hrest Hj). lia.
Qed.

Lemma ascending_lookup (l : list Z) (i j : nat) (a b : Z) :
  ascending l = true -> (i <= j)%nat -> l !! i = Some a -> l !! j = Some b -> a <= b.
Proof.
  revert i j. induction l as [| x l IH]; intros i j Hasc Hij Hi Hj; [discriminate |].
  destruct i as [| i].
  - cbn in Hi. injection Hi as <-. exact (ascending_head x l j b Hasc Hj).
  - destruct j as [| j]; [lia |]. cbn in Hi, Hj.
    apply (IH i j); [| lia | exact Hi | exact Hj].
    destruct l as [| y l]; [reflexivity |].
    cbn [ascending] in Hasc. now apply andb_true_iff in Hasc as [_ Hrest].
Qed.

(** The loop stops inside the table, every entry it stepped over is at or
    below the needle, and the entry after the one it stops at, if any, is
    above the needle: with fuel for the whole table the loop has run to its
    exit condition. *)
Lemma findLessOrEqual_loop_spec (fuel : nat) (haystack : list Z) (needle : Z) (i : nat) :
  (length haystack <= i + fuel)%nat ->
  (i < length haystack)%nat ->
  let r := findLessOrEqual_loop fuel haystack needle i in
  (i <= r < length haystack)%nat
  /\ (forall j, (i < j <= r)%nat -> exists h, haystack !! j = Some h /\ h <= needle)
  /\ (forall h, haystack !! (r + 1)%nat = Some h -> needle < h).
Proof.
  revert i. induction fuel as [| fuel IH]; intros i Hfuel Hi; cbn.
  - split; [lia |]. split; [intros j Hj; lia |].
    intros h Hh. apply lookup_lt_Some in Hh. lia.
  - destruct (haystack !! (i + 1)%nat) as [next |] eqn:Hnext.
    + destruct (needle >=? next) eqn:Hge.
      * apply lookup_lt_Some in Hnext as Hlt.
        destruct (IH (i + 1)%nat ltac:(lia) Hlt) as (Hr & Hbelow & Habove).
        split; [lia |]. split; [| exact Habove].
        intros j Hj. destruct (decide (j = (i + 1)%nat)) as [-> | Hne].
        -- exists next. split; [exact Hnext | apply Z.geb_le in Hge; lia].
        -- apply Hbelow. lia.
      * split; [lia |]. split; [intros j Hj; lia |].
        intros h Hh. rewrite Hnext in Hh. injection Hh as <-.
        rewrite Z.geb_leb in Hge. apply Z.leb_gt in Hge. lia.
    + split; [lia |]. split; [intros j Hj; lia |].
      intros h Hh. rewrite Hnext in Hh. discriminate.
Qed.

(** On a line-start table that covers the needle, [findLessOrEqual] returns the
    largest index whose entry is at or below the needle. *)
Lemma findLessOrEqual_largest (lm : list Z) (needle : Z) :
  line_start_table lm needle = true ->
  exists (i : nat) (s : Z),
    findLessOrEqual lm needle = Z.of_nat i
    /\ lm !! i = Some s
    /\ s <= needle
    /\ forall j s', lm !! j = Some s' -> s' <= needle -> (j <= i)%nat.
Proof.
  intros Htable. destruct lm as [| first rest] eqn:Hlm; [discriminate |].
  rewrite <- Hlm in *. assert (Hlen : (0 < length lm)%nat) by (subst lm; cbn; lia).
  assert (Hfirst : first <= needle /\ ascending lm = true).
  { subst lm. cbn [line_start_table] in Htable.
    apply andb_true_iff in Htable as [H1 H2]. apply Z.leb_le in H1. now split. }
  destruct Hfirst as [Hfirst Hasc].
  destruct (findLessOrEqual_loop_spec (length lm) lm needle 0 ltac:(lia) Hlen)
    as (Hr & Hbelow & Habove).
  set (r := findLessOrEqual_loop (length lm) lm needle 0) in *.
  destruct (lookup_lt_is_Some_2 lm r ltac:(lia)) as [s Hs].
  exists r, s. split; [| split; [exact Hs | split]].
  - unfold findLessOrEqual. fold r.
    destruct (r =? length lm)%nat eqn:Heq; [apply Nat.eqb_eq in Heq; lia | reflexivity].
  - destruct (decide (r = 0%nat)) as [Hr0 | Hr0].
    + rewrite Hr0 in Hs. subst lm. cbn in Hs. injection Hs as <-. exact Hfirst.
    + destruct (Hbelow r ltac:(lia)) as (h & Hh & Hle). rewrite Hs in Hh.
      injection Hh as <-. exact Hle.
  - intros j s' Hj Hle. destruct (le_gt_dec j r) as [Hjr | Hjr]; [exact Hjr |].
    exfalso. apply lookup_lt_Some in Hj as Hjlen.
    destruct (lookup_lt_is_Some_2 lm (r + 1)%nat ltac:(lia)) as [h Hh].
    specialize (Habove h Hh).
    assert (h <= s') by (apply (ascending_lookup lm (r + 1)%nat j h s' Hasc); [lia | easy | easy]).
    lia.
Qed.

(** The position printed for a diagnostic in a file with a line-start table:
    the table's largest entry at or below the offset gives the line, counted
    from 1, and the distance to it the column, counted from 1. *)
Lemma errPos_line_col (err : Diagnostic) (f : SourceFile) (lm : list Z) :
  file err = Some f -> lineMap f = Some lm ->
  line_start_table lm (start err) = true ->
  exists (i : nat) (s : Z),
    lm !! i = Some s
    /\ s <= start err
    /\ (forall j s', lm !! j = Some s' -> s' <= start err -> (j <= i)%nat)
    /\ errPos err =
         "Line: " +:+ pretty (Z.of_nat i + 1) +:+ ", Col: " +:+ pretty (start err - s + 1).
Proof.
  intros Hf Hlm Htable.
  destruct (findLessOrEqual_largest lm (start err) Htable) as (i & s & Hfind & Hs & Hle & Hmax).
  exists i, s. repeat split; try assumption.
  unfold errPos. rewrite Hf, Hlm. cbn zeta. rewrite Hfind.
  unfold lineMap_at. destruct (Z.of_nat i <? 0) eqn:Hneg; [apply Z.ltb_lt in Hneg; lia |].
  rewrite Nat2Z.id, Hs. reflexivity.
Qed.

(** C5: when diagnostics survive the filters, the promise of index.js is
    rejected with one string, the messages of the surviving diagnostics joined
    by newlines.  Each message is [Error <code>: <messageText> (<position>)];
    the position is [No line map] for a diagnostic without a file or with a file
    without a line map, and otherwise, on a line-start table that covers the
    offset, [Line: L, Col: C] for the largest table entry at or below the
    offset, both counted from 1. *)
Theorem C5_failure_message {host : Host}
    (w : World) (params : FileRecord) (compiled : TranspileOutput) :
  isIgnored (this w) (path params) = false ->
  ts_transpileModule (data params) (tsOptions_of (this w) params) = inr compiled ->
  IndexJs.reportable_diagnostics (this w) compiled <> [] ->
  fst (IndexJs.compile params w) =
    inr (IndexJs.Rejected
           (ThrownString
              (String.concat newline
                 (map toMeaningfulMessage (IndexJs.reportable_diagnostics (this w) compiled)))))
  /\ forall err,
       toMeaningfulMessage err =
         "Error " +:+ pretty (code err) +:+ ": " +:+ messageText err +:+
         " (" +:+ errPos err +:+ ")"
       /\ match file err with
          | None => errPos err = "No line map"
          | Some f =>
              match lineMap f with
              | None => errPos err = "No line map"
              | Some lm =>
                  line_start_table lm (start err) = true ->
                  exists (i : nat) (s : Z),
                    lm !! i = Some s
                    /\ s <= start err
                    /\ (forall j s', lm !! j = Some s' -> s' <= start err -> (j <= i)%nat)
                    /\ errPos err =
                         "Line: " +:+ pretty (Z.of_nat i + 1) +:+
                         ", Col: " +:+ pretty (start err - s + 1)
              end
          end.
Proof.
  intros Hig Hts Hne. split.
  - rewrite (IndexJs_compile_run w params Hig), Hts. cbn.
    destruct (IndexJs.reportable_diagnostics (this w) compiled); [congruence | reflexivity].
  - intros err. split; [reflexivity |].
    destruct (file err) as [f |] eqn:Hf.
    + destruct (lineMap f) as [lm |] eqn:Hlm.
      * intros Htable. exact (errPos_line_col err f lm Hf Hlm Htable).
      * unfold errPos. now rewrite Hf, Hlm.
    + unfold errPos. now rewrite Hf.
Qed.

Lemma C5_witness :
  IndexJs.reportable_diagnostics plain_adapter (sample_output plain_adapter broken_file) =
    [Sample.semicolon_expected; Sample.no_file]
  /\ line_start_table [0; 12; 30] (start Sample.semicolon_expected) = true
  /\ fst (IndexJs.compile (host := Sample.node) broken_file (Sample.world plain_adapter)) =
       inr (IndexJs.Rejected
              (ThrownString
                 ("Error 1005: ';' expected. (Line: 2, Col: 3)" +:+ newline +:+
                  "Error 5023: Unknown compiler option. (No line map)"))).
Proof.
  split; [reflexivity | split; [reflexivity |]].
  apply (C5_failure_message (host := Sample.node) (Sample.world plain_adapter) broken_file
           (sample_output plain_adapter broken_file) eq_refl eq_refl).
  discriminate.
Defined.

(** ** Enum resolution *)

Section EnumFacts.
Context {host : Host}.

Lemma resolveEnum_loop_none (s : string) (keys : list string) (opts : enum_table) :
  (forall k, In k keys -> toUpperCase s <> toUpperCase k) ->
  resolveEnum_loop s keys opts = None.
Proof.
  induction keys as [| k keys IH]; intros Hno; [reflexivity |].
  cbn. destruct (String.eqb_spec (toUpperCase s) (toUpperCase k)) as [Heq | Hne].
  - exfalso. apply (Hno k); [now left | exact Heq].
  - apply IH. intros k' Hk'. apply Hno. now right.
Qed.

Lemma resolveEnum_loop_first (s : string) (before : list string) (k : string)
    (after : list string) (opts : enum_table) :
  (forall k', In k' before -> toUpperCase s <> toUpperCase k') ->
  toUpperCase s = toUpperCase k ->
  resolveEnum_loop s (before ++ k :: after) opts = Some (enum_get opts k).
Proof.
  induction before as [| b before IH]; intros Hno Heq; cbn.
  - rewrite Heq, String.eqb_refl. reflexivity.
  - destruct (String.eqb_spec (toUpperCase s) (toUpperCase b)) as [Hb | Hb].
    + exfalso. apply (Hno b); [now left | exact Hb].
    + apply IH; [| exact Heq]. intros k' Hk'. apply Hno. now right.
Qed.

Lemma enum_get_first (before : enum_table) (k : string) (v : value) (after : enum_table) :
  (forall k' v', In (k', v') before -> k' <> k) ->
  enum_get (before ++ (k, v) :: after) k = v.
Proof.
  induction before as [| [b vb] before IH]; intros Hno; cbn.
  - now rewrite String.eqb_refl.
  - destruct (String.eqb_spec b k) as [Hb | Hb].
    + exfalso. apply (Hno b vb); [now left | exact Hb].
    + apply IH. intros k' v' Hk'. apply (Hno k' v'). now right.
Qed.

Lemma resolveEnum_string (s : string) (opts : enum_table) :
  s <> "" -> StringToNumber s = NaN ->
  resolveEnum (VString s) opts =
    inr (default (VNumber (Int 1)) (resolveEnum_loop s (Object_keys opts) opts)).
Proof.
  intros Hne Hnan. apply String.eqb_neq in Hne.
  unfold resolveEnum, isNaN. cbn. rewrite Hne, Hnan. cbn.
  now destruct (resolveEnum_loop s (Object_keys opts) opts).
Qed.

End EnumFacts.

(** C6: [resolveEnum] returns 1 for an absent or falsy choice; the number a
    truthy choice converts to, as it is, when it converts to one, so 5 for the
    string "5"; for a string that is not a number, the table's value under the
    first key equal to it up to case, and 1 when no key is; and it throws for
    no string. *)
Theorem C6_resolveEnum {host : Host} (opts : enum_table) :
  resolveEnum VUndefined opts = inr (VNumber (Int 1))
  /\ (forall choice, truthy choice = false -> resolveEnum choice opts = inr (VNumber (Int 1)))
  /\ (forall choice z, truthy choice = true -> ToNumber choice = Int z ->
        resolveEnum choice opts = inr (VNumber (Int z)))
  /\ (StringToNumber "5" = Int 5 -> resolveEnum (VString "5") opts = inr (VNumber (Int 5)))
  /\ (forall s before k v after,
        s <> "" -> StringToNumber s = NaN ->
        opts = before ++ (k, v) :: after ->
        toUpperCase s = toUpperCase k ->
        (forall k' v', In (k', v') before -> toUpperCase s <> toUpperCase k') ->
        resolveEnum (VString s) opts = inr v)
  /\ (forall s,
        s <> "" -> StringToNumber s = NaN ->
        (forall k v, In (k, v) opts -> toUpperCase s <> toUpperCase k) ->
        resolveEnum (VString s) opts = inr (VNumber (Int 1)))
  /\ (forall s, exists v, resolveEnum (VString s) opts = inr v).
Proof.
  assert (Hnum : forall choice z, truthy choice = true -> ToNumber choice = Int z ->
                   resolveEnum choice opts = inr (VNumber (Int z))).
  { intros choice z Ht Hz. unfold resolveEnum, isNaN. rewrite Ht, Hz. cbn.
    now rewrite Z.sub_0_r. }
  split; [reflexivity |]. split; [| split; [exact Hnum | split; [| split; [| split]]]].
  - intros choice Hf. unfold resolveEnum. now rewrite Hf.
  - intros H5. now apply Hnum.
  - intros s before k v after Hne Hnan -> Heq Hno.
    rewrite (resolveEnum_string s _ Hne Hnan). unfold Object_keys.
    rewrite map_app. cbn [map fst].
    rewrite (resolveEnum_loop_first s (map fst before) k (map fst after)); [| | exact Heq].
    + cbn. f_equal. apply enum_get_first. intros k' v' Hin ->.
      now apply (Hno k v').
    + intros k' Hin. apply in_map_iff in Hin as [[k'' v'] [<- Hin]]. cbn.
      now apply (Hno k'' v').
  - intros s Hne Hnan Hno. rewrite (resolveEnum_string s _ Hne Hnan).
    rewrite resolveEnum_loop_none; [reflexivity |].
    intros k Hin. apply in_map_iff in Hin as [[k' v] [<- Hin]]. cbn. now apply (Hno k' v).
  - intros s. unfold resolveEnum.
    destruct (negb (truthy (VString s))); [eauto |].
    destruct (negb (isNaN (VString s))); [eauto |].
    destruct (resolveEnum_loop s (Object_keys opts) opts); eauto.
Qed.

(** The examples of the specification, on TypeScript's targets and ASCII names. *)
Lemma C6_witness :
  resolveEnum (host := Sample.node) VUndefined Sample.ScriptTarget = inr (VNumber (Int 1))
  /\ resolveEnum (host := Sample.node) (VString "5") Sample.ScriptTarget = inr (VNumber (Int 5))
  /\ resolveEnum (host := Sample.node) (VString "ESNext") Sample.ScriptTarget =
       inr (VNumber (Int 99))
  /\ resolveEnum (host := Sample.node) (VString "esnext") Sample.ScriptTarget =
       inr (VNumber (Int 99))
  /\ resolveEnum (host := Sample.node) (VString "bogus") Sample.ScriptTarget =
       inr (VNumber (Int 1)).
Proof.
  pose proof (C6_resolveEnum (host := Sample.node) Sample.ScriptTarget)
    as (Habsent & _ & _ & Hfive & _ & _ & _).
  split; [exact Habsent |]. split; [exact (Hfive eq_refl) |]. repeat split.
Defined.

(** The number 0 is falsy and resolves to the default, the string "0" is truthy
    and resolves to 0. *)
Example resolveEnum_zero :
  resolveEnum (host := Sample.node) (VNumber (Int 0)) Sample.ModuleKind = inr (VNumber (Int 1))
  /\ resolveEnum (host := Sample.node) (VString "0") Sample.ModuleKind = inr (VNumber (Int 0)).
Proof. split; reflexivity. Qed.

(** An object is no string: the loop calls a [toUpperCase] it does not have. *)
Example resolveEnum_object_throws :
  resolveEnum (host := Sample.node) (VObject ∅) Sample.JsxEmit =
  inl (TypeError "choice.toUpperCase is not a function").
Proof. reflexivity. Qed.

(** ** Loading tsconfig.json *)

(** C7, as stated, fails on part_000: a configuration without a config-root
    path makes its [getTSconfig], and with it the construction, throw a
    TypeError, where index.js builds the adapter with the default options. *)
Lemma C7_counterexample :
  Part000.getTSconfig (host := Sample.node) no_paths_config =
    inl (TypeError "Cannot read properties of undefined (reading 'root')")
  /\ Part000.constructor (host := Sample.node) (Some no_paths_config) =
       inl (TypeError "Cannot read properties of undefined (reading 'root')")
  /\ Part000.constructor (host := Sample.node) (Some no_root_config) =
       inl (TypeError "The paths[0] argument must be of type string")
  /\ IndexJs.constructor (host := Sample.node) (Some no_paths_config) =
       inr (index_adapter no_paths_config)
  /\ options (index_adapter no_paths_config) = default_options.
Proof. repeat split; vm_compute; reflexivity. Qed.

(** C7, amended: index.js takes a missing config-root path, an empty one, and
    a tsconfig.json that [require] fails on (missing, not found, not parseable)
    for an empty options mapping; part_000 does so for a tsconfig.json that
    [require] fails on, given that [config.paths.root] is a string. *)
Theorem C7_tsconfig_failure_absorbed {host : Host} :
  IndexJs.getTsconfig None = Some ∅
  /\ IndexJs.getTsconfig (Some "") = Some ∅
  /\ (forall r e, require_ (path_resolve r "tsconfig.json") = inl e ->
        IndexJs.getTsconfig (Some r) = Some ∅)
  /\ (forall c p r e,
        paths c = Some p -> root p = Some r ->
        require_ (path_resolve r "tsconfig.json") = inl e ->
        Part000.getTSconfig c = inr (Some ∅)).
Proof.
  split; [reflexivity |]. split; [reflexivity |]. split.
  - intros r e Hreq. unfold IndexJs.getTsconfig.
    destruct (String.eqb r ""); [reflexivity | now rewrite Hreq].
  - intros c p r e Hp Hr Hreq. unfold Part000.getTSconfig. now rewrite Hp, Hr, Hreq.
Qed.

Lemma C7_witness :
  Sample.require_json (Sample.resolve_path "/nowhere" "tsconfig.json") =
    inl (ThrownError "Error" "Cannot find module")
  /\ IndexJs.getTsconfig (host := Sample.node) (Some "/nowhere") = Some ∅
  /\ Part000.getTSconfig (host := Sample.node) no_tsconfig_config = inr (Some ∅).
Proof.
  pose proof (C7_tsconfig_failure_absorbed (host := Sample.node)) as (_ & _ & Hindex & Hpart).
  split; [reflexivity |]. split.
  - exact (Hindex "/nowhere" _ eq_refl).
  - exact (Hpart no_tsconfig_config _ "/nowhere" _ eq_refl eq_refl eq_refl).
Defined.

(** Both constructors then build the adapter with the default options. *)
Example construction_without_tsconfig :
  IndexJs.constructor (host := Sample.node) (Some no_tsconfig_config) =
    inr (index_adapter no_tsconfig_config)
  /\ Part000.constructor (host := Sample.node) (Some no_tsconfig_config) =
    inr (part_adapter no_tsconfig_config)
  /\ options (index_adapter no_tsconfig_config) = default_options
  /\ options (part_adapter no_tsconfig_config) = default_options.
Proof. repeat split; vm_compute; reflexivity. Qed.

(** A tsconfig.json that loads but has no [compilerOptions] is not absorbed:
    [this.options] is [undefined] and the construction throws. *)
Example construction_without_compilerOptions :
  IndexJs.constructor (host := Sample.node)
    (Some {| plugins := None; paths := Some {| root := Some "/bare" |};
             sourceMaps := VBool false;
             conventions := Some {| vendor := VRegExp "vendor/" |} |}) =
  inl (TypeError "Cannot read properties of undefined (reading 'module')").
Proof. reflexivity. Qed.

(** ** The two variants side by side *)

Section VariantFacts.
Context {host : Host}.

Lemma finish_ext (o : Options) (ignored : string -> bool) (e1 e2 : option string) :
  finish o ignored e2 =
  match finish o ignored e1 with
  | inr self => inr (with_targetExtension e2 self)
  | inl e => inl e
  end.
Proof.
  unfold finish. unfold_monad.
  destruct (truthy (get o "pattern"));
    match goal with
    | |- context [truthy (get ?m "ignoreErrors")] =>
        destruct (truthy (get m "ignoreErrors")); [| reflexivity];
        destruct (get m "ignoreErrors") as [| | [|] | n | s | l | m' | r]; try reflexivity;
        destruct (new_Set _); reflexivity
    end.
Qed.

Lemma build_result_transpile_js (compiled : TranspileOutput) (keep : list Diagnostic)
    (p : string) :
  build_result {| outputText := outputText compiled; diagnostics := keep;
                  sourceMapText := sourceMapText compiled |} p =
  build_result compiled p.
Proof. reflexivity. Qed.

(** The outcome of [compile] depends on the adapter only, not on the calls
    recorded so far. *)
Lemma IndexJs_compile_this (w1 w2 : World) (params : FileRecord) :
  this w1 = this w2 ->
  fst (IndexJs.compile params w1) = fst (IndexJs.compile params w2).
Proof.
  intros Hthis. destruct (isIgnored (this w1) (path params)) eqn:Hig.
  - rewrite (IndexJs_compile_ignored w1 params Hig).
    rewrite Hthis in Hig. now rewrite (IndexJs_compile_ignored w2 params Hig).
  - rewrite (IndexJs_compile_run w1 params Hig).
    rewrite Hthis in Hig. rewrite (IndexJs_compile_run w2 params Hig).
    cbn. now rewrite Hthis.
Qed.

Lemma Part000_compile_this
    (transpileModule : string -> TranspileOptions -> result TranspileOutput)
    (w1 w2 : World) (file : FileRecord) :
  this w1 = this w2 ->
  fst (Part000.compile transpileModule file w1) = fst (Part000.compile transpileModule file w2).
Proof.
  intros Hthis. destruct (isIgnored (this w1) (path file)) eqn:Hig.
  - rewrite (Part000_compile_ignored transpileModule w1 file Hig).
    rewrite Hthis in Hig. now rewrite (Part000_compile_ignored transpileModule w2 file Hig).
  - rewrite (Part000_compile_run transpileModule w1 file Hig).
    rewrite Hthis in Hig. rewrite (Part000_compile_run transpileModule w2 file Hig).
    cbn. now rewrite Hthis.
Qed.

Lemma IndexJs_compile_keeps_this (w : World) (params : FileRecord) :
  this (snd (IndexJs.compile params w)) = this w.
Proof.
  destruct (isIgnored (this w) (path params)) eqn:Hig.
  - now rewrite (IndexJs_compile_ignored w params Hig).
  - now rewrite (IndexJs_compile_run w params Hig).
Qed.

Lemma Part000_compile_keeps_this
    (transpileModule : string -> TranspileOptions -> result TranspileOutput)
    (w : World) (file : FileRecord) :
  this (snd (Part000.compile transpileModule file w)) = this w.
Proof.
  destruct (isIgnored (this w) (path file)) eqn:Hig.
  - now rewrite (Part000_compile_ignored transpileModule w file Hig).
  - now rewrite (Part000_compile_run transpileModule w file Hig).
Qed.

End VariantFacts.

(** With the helper as the specification describes it, part_000 reports no
    diagnostic of the fixed set either. *)
Lemma Part000_fixed_set_with_helper {host : Host} (w : World) (file : FileRecord)
    (compiled : TranspileOutput) :
  isIgnored (this w) (path file) = false ->
  ts_transpileModule (data file) (tsOptions_of (this w) file) = inr compiled ->
  (forall d, In d (diagnostics compiled) -> code d ∈ ignoredErrors) ->
  fst (Part000.compile Part000.transpile_js file w) = outcome_of [] compiled (path file).
Proof.
  intros Hig Hts Hall.
  rewrite (Part000_compile_run Part000.transpile_js w file Hig).
  unfold Part000.transpile_js. unfold_monad. rewrite Hts. cbn.
  now rewrite (filter_all_fixed _ Hall), own_filter_nil.
Qed.

(** C8, as stated, fails: from a configuration that sets [ignoreErrors: true]
    under [plugins.typescript], part_000 builds an adapter that suppresses every
    diagnostic, index.js one that does not read that key; on a file with
    diagnostics the first returns a result, whichever of the two readings of
    [./transpile] it calls, and the second rejects. *)
Lemma C8_counterexample :
  IndexJs.constructor (host := Sample.node) (Some typescript_key_config) =
    inr (index_adapter typescript_key_config)
  /\ Part000.constructor (host := Sample.node) (Some typescript_key_config) =
    inr (part_adapter typescript_key_config)
  /\ fst (IndexJs.compile (host := Sample.node) broken_file
            (Sample.world (index_adapter typescript_key_config))) =
     inr (IndexJs.Rejected
            (ThrownString
               ("Error 1005: ';' expected. (Line: 2, Col: 3)" +:+ newline +:+
                "Error 5023: Unknown compiler option. (No line map)")))
  /\ fst (Part000.compile (host := Sample.node) (Part000.transpile_js (host := Sample.node))
            broken_file (Sample.world (part_adapter typescript_key_config))) =
     inr (Compiled {| result_data := "broken" +:+ newline; result_map := None |})
  /\ fst (Part000.compile (host := Sample.node) Sample.transpile
            broken_file (Sample.world (part_adapter typescript_key_config))) =
     inr (Compiled {| result_data := "broken" +:+ newline; result_map := None |}).
Proof. repeat split; vm_compute; reflexivity. Qed.

(** Under a configuration both constructors read alike, they fail together
    or build the same adapter, up to the [targetExtension] of part_000. *)
Lemma constructors_related {host : Host} (c : Config) (p : Plugins) (ps : Paths) (r : string) :
  plugins c = Some p -> typescript p = None ->
  paths c = Some ps -> root ps = Some r -> r <> "" ->
  match IndexJs.constructor (Some c), Part000.constructor (Some c) with
  | inr a, inr b => exists ext, b = with_targetExtension (Some ext) a
  | inl _, inl _ => True
  | _, _ => False
  end.
Proof.
  intros Hp Hts Hps Hr Hne. apply String.eqb_neq in Hne.
  unfold Part000.constructor, IndexJs.constructor, Part000.getTSconfig, IndexJs.getTsconfig.
  cbn. rewrite Hp, Hts, Hps, Hr, Hne. unfold_monad. cbn.
  assert (Htail : forall t : Options,
    match
      match normalize (sourceMaps c) (overlay (default ∅ (brunchTypescript p)) t) with
      | inr o =>
          match build_isIgnored (default ∅ (brunchTypescript p)) c with
          | inr ignored => finish o ignored None
          | inl e => inl e
          end
      | inl e => inl e
      end,
      match normalize (sourceMaps c) (overlay (default ∅ (brunchTypescript p)) t) with
      | inr o =>
          match build_isIgnored (default ∅ (brunchTypescript p)) c with
          | inr ignored =>
              finish o ignored
                (Some (Part000.jsx_extension (overlay (default ∅ (brunchTypescript p)) t)))
          | inl e => inl e
          end
      | inl e => inl e
      end
    with
    | inr a, inr b => exists ext, b = with_targetExtension (Some ext) a
    | inl _, inl _ => True
    | _, _ => False
    end).
  { intros t. destruct (normalize _ _) as [e | o]; [exact I |].
    destruct (build_isIgnored _ c) as [e | ignored]; [exact I |].
    rewrite (finish_ext o ignored None (Some _)).
    destruct (finish o ignored None) as [e | self]; [exact I | eauto]. }
  destruct (require_ (path_resolve r "tsconfig.json")) as [e | [[t |]]]; cbn.
  - apply Htail.
  - apply Htail.
  - exact I.
Qed.

(** C8, amended: on the same adapter and the same file, with the [./transpile]
    of part_000 returning what [ts.transpileModule] returns less the diagnostics
    of the fixed set, the promise of index.js is settled with the very outcome
    part_000 returns or throws, and both leave the same store; and from a
    configuration with [plugins], no [plugins.typescript] and a non-empty
    [paths.root], one constructor succeeds when the other does, with the same
    adapter up to [targetExtension]. *)
Theorem C8_variants_agree {host : Host}
    (transpileModule : string -> TranspileOptions -> result TranspileOutput) :
  (forall input o, transpileModule input o = Part000.transpile_js input o) ->
  (forall w params,
     IndexJs.compile params w =
       (inr (promise_of (fst (Part000.compile transpileModule params w))),
        snd (Part000.compile transpileModule params w)))
  /\ (forall c p ps r,
        plugins c = Some p -> typescript p = None ->
        paths c = Some ps -> root ps = Some r -> r <> "" ->
        (forall self, IndexJs.constructor (Some c) = inr self ->
           exists ext,
             Part000.constructor (Some c) = inr (with_targetExtension (Some ext) self))
        /\ (forall self', Part000.constructor (Some c) = inr self' ->
              exists self ext,
                IndexJs.constructor (Some c) = inr self
                /\ self' = with_targetExtension (Some ext) self)).
Proof.
  intros Hhelper. split.
  - intros w params. destruct (isIgnored (this w) (path params)) eqn:Hig.
    + rewrite (IndexJs_compile_ignored w params Hig).
      now rewrite (Part000_compile_ignored transpileModule w params Hig).
    + rewrite (IndexJs_compile_run w params Hig).
      rewrite (Part000_compile_run transpileModule w params Hig).
      rewrite Hhelper. unfold Part000.transpile_js. unfold_monad. cbn.
      destruct (ts_transpileModule (data params) (tsOptions_of (this w) params))
        as [e | compiled]; [reflexivity |].
      cbn. unfold outcome_of. rewrite build_result_transpile_js. reflexivity.
  - intros c p ps r Hp Hts Hps Hr Hne.
    pose proof (constructors_related c p ps r Hp Hts Hps Hr Hne) as Hrel.
    destruct (IndexJs.constructor (Some c)) as [e | a];
      destruct (Part000.constructor (Some c)) as [e' | b]; try contradiction.
    + split; [intros self [=] | intros self' [=]].
    + destruct Hrel as [ext ->]. split.
      * intros self [= <-]. now exists ext.
      * intros self' [= <-]. now exists a, ext.
Qed.

Lemma C8_witness :
  (forall input o, Part000.transpile_js (host := Sample.node) input o =
                   Part000.transpile_js (host := Sample.node) input o)
  /\ IndexJs.compile (host := Sample.node) broken_file (Sample.world plain_adapter) =
       (inr (promise_of
               (fst (Part000.compile (host := Sample.node)
                       (Part000.transpile_js (host := Sample.node)) broken_file
                       (Sample.world plain_adapter)))),
        snd (Part000.compile (host := Sample.node)
               (Part000.transpile_js (host := Sample.node)) broken_file
               (Sample.world plain_adapter))).
Proof.
  split; [reflexivity |].
  apply (C8_variants_agree (host := Sample.node) (Part000.transpile_js (host := Sample.node))
           (fun _ _ => eq_refl)).
Defined.

(** Were [./transpile] the compiler's own [transpileModule], the variants
    would differ on a diagnostic of the fixed set: part_000 has no filter for
    it. *)
Example raw_transpile_differs :
  fst (IndexJs.compile (host := Sample.node) import_file (Sample.world plain_adapter)) =
    inr (IndexJs.Fulfilled
           (Compiled {| result_data := "import x from 'y';" +:+ newline;
                        result_map := None |}))
  /\ fst (Part000.compile (host := Sample.node) Sample.transpile import_file
            (Sample.world plain_adapter)) =
    inl (ThrownString "Error 2307: Cannot find module 'y'. (Line: 1, Col: 6)").
Proof. split; vm_compute; reflexivity. Qed.

(** C9: [compile] leaves the adapter of the store as it found it, in both
    variants and whatever the file: options, ignore predicate, pattern and
    diagnostic filter are those fixed at construction.  A call's outcome is
    therefore the same after any earlier call as before it. *)
Theorem C9_compile_keeps_adapter {host : Host}
    (transpileModule : string -> TranspileOptions -> result TranspileOutput)
    (w : World) (params : FileRecord) :
  this (snd (IndexJs.compile params w)) = this w
  /\ this (snd (Part000.compile transpileModule params w)) = this w
  /\ get_pattern (this (snd (IndexJs.compile params w))) = get_pattern (this w)
  /\ (forall next,
        fst (IndexJs.compile next (snd (IndexJs.compile params w))) =
        fst (IndexJs.compile next w))
  /\ (forall next,
        fst (Part000.compile transpileModule next
               (snd (Part000.compile transpileModule params w))) =
        fst (Part000.compile transpileModule next w)).
Proof.
  split; [apply IndexJs_compile_keeps_this |].
  split; [apply Part000_compile_keeps_this |].
  split; [now rewrite IndexJs_compile_keeps_this |].
  split; intros next.
  - apply IndexJs_compile_this, IndexJs_compile_keeps_this.
  - apply Part000_compile_this, Part000_compile_keeps_this.
Qed.

(** Two calls in a row on the sample adapter: the second answers as it would
    have answered alone, and the adapter is the one the calls started with. *)
Lemma C9_witness :
  this (snd (IndexJs.compile (host := Sample.node) broken_file (Sample.world plain_adapter))) =
    plain_adapter
  /\ fst (IndexJs.compile (host := Sample.node) import_file
            (snd (IndexJs.compile (host := Sample.node) broken_file
                    (Sample.world plain_adapter)))) =
     fst (IndexJs.compile (host := Sample.node) import_file (Sample.world plain_adapter)).
Proof.
  pose proof (C9_compile_keeps_adapter (host := Sample.node) Sample.transpile
                (Sample.world plain_adapter) broken_file) as (Hthis & _ & _ & Hnext & _).
  split; [exact Hthis | exact (Hnext import_file)].
Defined.

(** C10: both constructors throw a TypeError on an omitted argument and on the
    empty configuration object.  A construction of index.js that succeeds
    without a truthy [ignore] option had a [config.conventions]; one of part_000
    that succeeds had [config.plugins] and [config.paths] as well. *)
Theorem C10_construction_needs_conventions {host : Host} :
  (exists msg, IndexJs.constructor None = inl (TypeError msg))
  /\ (exists msg, IndexJs.constructor (Some empty_config) = inl (TypeError msg))
  /\ (exists msg, Part000.constructor None = inl (TypeError msg))
  /\ (exists msg, Part000.constructor (Some empty_config) = inl (TypeError msg))
  /\ (forall c self,
        IndexJs.constructor (Some c) = inr self ->
        truthy (get (index_plugin_options c) "ignore") = false ->
        conventions c <> None)
  /\ (forall c self,
        Part000.constructor (Some c) = inr self ->
        plugins c <> None
        /\ paths c <> None
        /\ forall p, plugins c = Some p ->
                     truthy (get (part_plugin_options p) "ignore") = false ->
                     conventions c <> None).
Proof.
  assert (Hempty : exists msg, IndexJs.constructor (Some empty_config) = inl (TypeError msg)).
  { unfold IndexJs.constructor. cbn. vm_compute. eauto. }
  split; [exact Hempty |]. split; [exact Hempty |].
  split; [cbn; eauto |]. split; [cbn; eauto |]. split.
  - intros c self Hc Hno.
    destruct (IndexJs_constructor_inv c self Hc) as (t & o & ignored & _ & _ & Hb & _).
    exact (build_isIgnored_conventions _ c ignored Hb Hno).
  - intros c self Hc.
    destruct (Part000_constructor_inv c self Hc) as (p & t & o & ignored & ext & Hp & Ht & _ & Hb & _).
    split; [congruence |]. split.
    + unfold Part000.getTSconfig in Ht. destruct (paths c); [discriminate | discriminate Ht].
    + intros p' Hp' Hno. rewrite Hp in Hp'. injection Hp' as <-.
      exact (build_isIgnored_conventions _ c ignored Hb Hno).
Qed.

(** The sample configuration has [plugins], [paths] and [conventions], and both
    constructors build an adapter from it. *)
Lemma C10_witness :
  IndexJs.constructor (host := Sample.node) (Some (Sample.config ∅ false)) =
    inr (index_adapter (Sample.config ∅ false))
  /\ Part000.constructor (host := Sample.node) (Some (Sample.config ∅ false)) =
    inr (part_adapter (Sample.config ∅ false))
  /\ conventions (Sample.config ∅ false) <> None
  /\ plugins (Sample.config ∅ false) <> None
  /\ paths (Sample.config ∅ false) <> None.
Proof.
  pose proof (C10_construction_needs_conventions (host := Sample.node))
    as (_ & _ & _ & _ & Hindex & Hpart).
  assert (Hi : IndexJs.constructor (host := Sample.node) (Some (Sample.config ∅ false)) =
               inr (index_adapter (Sample.config ∅ false))) by (vm_compute; reflexivity).
  assert (Hp : Part000.constructor (host := Sample.node) (Some (Sample.config ∅ false)) =
               inr (part_adapter (Sample.config ∅ false))) by (vm_compute; reflexivity).
  split; [exact Hi |]. split; [exact Hp |]. split.
  - exact (Hindex _ _ Hi eq_refl).
  - split; [exact (proj1 (Hpart _ _ Hp)) | exact (proj1 (proj2 (Hpart _ _ Hp)))].
Defined.

(** With an [ignore] option the conventions are not looked at. *)
Example ignore_option_spares_conventions :
  exists self,
    IndexJs.constructor (host := Sample.node)
      (Some {| plugins := Some {| typescript := None;
                                  brunchTypescript := Some (<["ignore" := VString "lib/"]> ∅) |};
               paths := None; sourceMaps := VUndefined; conventions := None |}) = inr self
    /\ isIgnored self "lib/x.ts" = true.
Proof. eexists. split; [vm_compute; reflexivity | reflexivity]. Qed.

(** * Further properties of the code *)

(** ** The search in the line-start table *)

(** X1: [findLessOrEqual] answers -1 on the empty table only.  On any other
    table, sorted or not, its answer is an index of the table; every entry
    after the first up to that index is at or below the needle, and the entry
    after it, if there is one, is above the needle. *)
Theorem X1_findLessOrEqual_range (haystack : list Z) (needle : Z) :
  match haystack with
  | [] => findLessOrEqual haystack needle = -1
  | _ :: _ =>
      exists r : nat,
        findLessOrEqual haystack needle = Z.of_nat r
        /\ (r < length haystack)%nat
        /\ (forall j, (0 < j <= r)%nat -> exists h, haystack !! j = Some h /\ h <= needle)
        /\ (forall h, haystack !! (r + 1)%nat = Some h -> needle < h)
  end.
Proof.
  destruct haystack as [| x rest] eqn:Hh; [reflexivity |]. rewrite <- Hh.
  assert (Hlen : (0 < length haystack)%nat) by (subst; cbn; lia).
  destruct (findLessOrEqual_loop_spec (length haystack) haystack needle 0 ltac:(lia) Hlen)
    as (Hr & Hbelow & Habove).
  exists (findLessOrEqual_loop (length haystack) haystack needle 0).
  split; [| split; [lia | split; assumption]].
  unfold findLessOrEqual.
  destruct (_ =? length haystack)%nat eqn:Heq; [apply Nat.eqb_eq in Heq; lia | reflexivity].
Qed.

Lemma findLessOrEqual_loop_index (haystack : list Z) (needle : Z) :
  haystack <> [] ->
  findLessOrEqual haystack needle =
    Z.of_nat (findLessOrEqual_loop (length haystack) haystack needle 0)
  /\ (findLessOrEqual_loop (length haystack) haystack needle 0 < length haystack)%nat.
Proof.
  intros Hne. assert (Hlen : (0 < length haystack)%nat).
  { destruct haystack; [congruence | cbn; lia]. }
  destruct (findLessOrEqual_loop_spec (length haystack) haystack needle 0 ltac:(lia) Hlen)
    as (Hr & _ & _).
  split; [| lia]. unfold findLessOrEqual.
  destruct (_ =? length haystack)%nat eqn:Heq; [apply Nat.eqb_eq in Heq; lia | reflexivity].
Qed.

(** X2: on one table, a larger needle never gets a smaller index, whether the
    table is sorted or not. *)
Theorem X2_findLessOrEqual_monotone (haystack : list Z) (needle1 needle2 : Z) :
  needle1 <= needle2 ->
  findLessOrEqual haystack needle1 <= findLessOrEqual haystack needle2.
Proof.
  intros Hle. destruct haystack as [| x rest] eqn:Hh; [reflexivity |]. rewrite <- Hh.
  assert (Hne : haystack <> []) by (subst; discriminate).
  assert (Hlen : (0 < length haystack)%nat) by (subst; cbn; lia).
  destruct (findLessOrEqual_loop_index haystack needle1 Hne) as [-> _].
  destruct (findLessOrEqual_loop_index haystack needle2 Hne) as [-> _].
  destruct (findLessOrEqual_loop_spec (length haystack) haystack needle1 0 ltac:(lia) Hlen)
    as (Hr1 & Hbelow1 & _).
  destruct (findLessOrEqual_loop_spec (length haystack) haystack needle2 0 ltac:(lia) Hlen)
    as (Hr2 & _ & Habove2).
  set (r1 := findLessOrEqual_loop (length haystack) haystack needle1 0) in *.
  set (r2 := findLessOrEqual_loop (length haystack) haystack needle2 0) in *.
  apply Nat2Z.inj_le. destruct (le_gt_dec r1 r2) as [Hok | Hgt]; [exact Hok |].
  exfalso. destruct (Hbelow1 (r2 + 1)%nat ltac:(lia)) as (h & Hh' & Hhle).
  specialize (Habove2 h Hh'). lia.
Qed.

Lemma X2_witness :
  3 <= 14 /\ findLessOrEqual [0; 12; 30] 3 <= findLessOrEqual [0; 12; 30] 14.
Proof.
  split; [lia |]. apply (X2_findLessOrEqual_monotone [0; 12; 30] 3 14). lia.
Defined.

(** X3: an offset that is itself a line start, in an ascending table whose next
    line starts later, is found at its own index, and its position is column 1
    of that line. *)
Theorem X3_line_start_is_column_one (err : Diagnostic) (f : SourceFile) (lm : list Z)
    (i : nat) :
  file err = Some f -> lineMap f = Some lm ->
  line_start_table lm (start err) = true ->
  lm !! i = Some (start err) ->
  (forall h, lm !! (i + 1)%nat = Some h -> start err < h) ->
  findLessOrEqual lm (start err) = Z.of_nat i
  /\ errPos err = "Line: " +:+ pretty (Z.of_nat i + 1) +:+ ", Col: 1".
Proof.
  intros Hf Hlm Htable Hi Hnext.
  destruct (findLessOrEqual_largest lm (start err) Htable) as (r & s & Hfind & Hs & Hle & Hmax).
  assert (Hasc : ascending lm = true).
  { destruct lm; [discriminate |]. cbn [line_start_table] in Htable.
    now apply andb_true_iff in Htable as [_ ?]. }
  assert (Hir : (i <= r)%nat) by (apply (Hmax i (start err) Hi); lia).
  assert (Hri : r = i).
  { destruct (decide (r = i)) as [| Hne]; [assumption |]. exfalso.
    apply lookup_lt_Some in Hs as Hrlen.
    destruct (lookup_lt_is_Some_2 lm (i + 1)%nat ltac:(lia)) as [h Hh].
    specialize (Hnext h Hh).
    assert (h <= s) by (apply (ascending_lookup lm (i + 1)%nat r h s Hasc); [lia | easy | easy]).
    lia. }
  subst r. split; [exact Hfind |].
  unfold errPos. rewrite Hf, Hlm. cbn zeta. rewrite Hfind.
  unfold lineMap_at. destruct (Z.of_nat i <? 0) eqn:Hneg; [apply Z.ltb_lt in Hneg; lia |].
  rewrite Nat2Z.id, Hi. cbn. replace (start err - start err + 1) with 1 by lia. reflexivity.
Qed.

(** X4: a file with an empty line map does not give [No line map]: the search
    answers -1, the line prints as 0 and the column as NaN. *)
Theorem X4_empty_line_map (err : Diagnostic) (f : SourceFile) :
  file err = Some f -> lineMap f = Some [] ->
  errPos err = "Line: 0, Col: NaN"
  /\ toMeaningfulMessage err =
       "Error " +:+ pretty (code err) +:+ ": " +:+ messageText err +:+ " (Line: 0, Col: NaN)".
Proof.
  intros Hf Hlm. unfold toMeaningfulMessage, errPos. rewrite Hf, Hlm. split; reflexivity.
Qed.

Lemma X3_witness :
  line_start_table [0; 12; 30] (start second_line_diagnostic) = true
  /\ findLessOrEqual [0; 12; 30] (start second_line_diagnostic) = 1
  /\ errPos second_line_diagnostic = "Line: 2, Col: 1".
Proof.
  split; [reflexivity |].
  apply (X3_line_start_is_column_one second_line_diagnostic Sample.source_file [0; 12; 30] 1
           eq_refl eq_refl eq_refl eq_refl).
  intros h [= <-]. reflexivity.
Defined.

Lemma X4_witness :
  errPos empty_map_diagnostic = "Line: 0, Col: NaN"
  /\ toMeaningfulMessage empty_map_diagnostic =
       "Error 1128: Declaration or statement expected. (Line: 0, Col: NaN)".
Proof.
  apply (X4_empty_line_map empty_map_diagnostic {| lineMap := Some [] |} eq_refl eq_refl).
Defined.

(** ** Outcomes of [compile] *)

(** X5: the [compile] of index.js never throws: whatever the file and the
    adapter, it returns a promise, and the promise is settled when it returns. *)
Theorem X5_promise_always_settled {host : Host} (w : World) (params : FileRecord) :
  exists p, fst (IndexJs.compile params w) = inr p /\ p <> IndexJs.Pending.
Proof.
  destruct (isIgnored (this w) (path params)) eqn:Hig.
  - rewrite (IndexJs_compile_ignored w params Hig). eexists. split; [reflexivity | discriminate].
  - rewrite (IndexJs_compile_run w params Hig). eexists. split; [reflexivity |].
    destruct (ts_transpileModule _ _) as [e | compiled]; [discriminate |].
    destruct (outcome_of _ compiled (path params)); discriminate.
Qed.

(** X6: what the transpile operation throws on a file that is not ignored is
    what the call fails with, unchanged: index.js rejects with it, part_000
    throws it.  The call is on the record all the same. *)
Theorem X6_transpile_error_propagates {host : Host}
    (transpileModule : string -> TranspileOptions -> result TranspileOutput)
    (w : World) (params : FileRecord) (e : thrown) :
  isIgnored (this w) (path params) = false ->
  (ts_transpileModule (data params) (tsOptions_of (this w) params) = inl e ->
   IndexJs.compile params w =
     (inr (IndexJs.Rejected e), log_call (data params) (tsOptions_of (this w) params) w))
  /\ (transpileModule (data params) (tsOptions_of (this w) params) = inl e ->
      Part000.compile transpileModule params w =
        (inl e, log_call (data params) (tsOptions_of (this w) params) w)).
Proof.
  intros Hig. split; intros Hts.
  - now rewrite (IndexJs_compile_run w params Hig), Hts.
  - now rewrite (Part000_compile_run transpileModule w params Hig), Hts.
Qed.

Lemma X6_witness :
  fst (IndexJs.compile (host := Sample.node) throwing_file (Sample.world plain_adapter)) =
    inr (IndexJs.Rejected (ThrownError "Error" "Debug Failure."))
  /\ fst (Part000.compile (host := Sample.node) Sample.transpile throwing_file
            (Sample.world plain_adapter)) =
    inl (ThrownError "Error" "Debug Failure.").
Proof.
  pose proof (X6_transpile_error_propagates (host := Sample.node) Sample.transpile
                (Sample.world plain_adapter) throwing_file
                (ThrownError "Error" "Debug Failure.") eq_refl) as [Hi Hp].
  split; [now rewrite (Hi eq_refl) | now rewrite (Hp eq_refl)].
Defined.

(** X7: with no diagnostic left to report, a source map that cannot be parsed,
    or whose parsed form cannot take the path, fails the call with the error of
    that step: index.js rejects with it, part_000 throws it. *)
Theorem X7_malformed_source_map {host : Host}
    (transpileModule : string -> TranspileOptions -> result TranspileOutput)
    (w : World) (params : FileRecord) (compiled : TranspileOutput) (text : string)
    (e : thrown) :
  isIgnored (this w) (path params) = false ->
  sourceMapText compiled = Some text ->
  text <> "" ->
  (JSON_parse text = inl e
   \/ exists rawMap, JSON_parse text = inr rawMap /\ set_sources_0 rawMap (path params) = inl e) ->
  (ts_transpileModule (data params) (tsOptions_of (this w) params) = inr compiled ->
   IndexJs.reportable_diagnostics (this w) compiled = [] ->
   fst (IndexJs.compile params w) = inr (IndexJs.Rejected e))
  /\ (transpileModule (data params) (tsOptions_of (this w) params) = inr compiled ->
      own_filter (this w) (diagnostics compiled) = [] ->
      fst (Part000.compile transpileModule params w) = inl e).
Proof.
  intros Hig Hmap Hne Hfail. apply String.eqb_neq in Hne.
  assert (Hbuild : build_result compiled (path params) = inl e).
  { unfold build_result. rewrite Hmap, Hne.
    destruct Hfail as [-> | (rawMap & -> & ->)]; reflexivity. }
  split; intros Hts Hrep.
  - rewrite (IndexJs_compile_run w params Hig), Hts, Hrep. cbn. now rewrite Hbuild.
  - rewrite (Part000_compile_run transpileModule w params Hig), Hts, Hrep. cbn.
    now rewrite Hbuild.
Qed.

Lemma X7_witness :
  JSON_parse (Host := bad_map_host) "not json" =
    inl (ThrownError "SyntaxError" "Unexpected token")
  /\ fst (IndexJs.compile (host := bad_map_host) import_file (Sample.world plain_adapter)) =
       inr (IndexJs.Rejected (ThrownError "SyntaxError" "Unexpected token")).
Proof.
  split; [reflexivity |].
  apply (X7_malformed_source_map (host := bad_map_host) bad_map_transpile
           (Sample.world plain_adapter) import_file
           {| outputText := data import_file; diagnostics := [];
              sourceMapText := Some "not json" |}
           "not json" (ThrownError "SyntaxError" "Unexpected token")
           eq_refl eq_refl ltac:(discriminate) (or_introl eq_refl)); reflexivity.
Defined.

(** A parsed map that is no object, or has no [sources], cannot take the path. *)
Lemma set_sources_0_missing (rawMap : value) (p : string) :
  match rawMap with
  | VObject m => m !! "sources" = None
  | _ => True
  end ->
  exists msg, set_sources_0 rawMap p = inl (TypeError msg).
Proof.
  destruct rawMap as [| | b | n | s | l | m | r]; intros H; cbn; eauto.
  rewrite H. eauto.
Qed.

(** X8: on a parsed map whose [sources] is an array, the patch writes the path
    at index 0 and nothing else: the array keeps its other entries and its
    length, an empty array becoming a one-entry array, and every other key of
    the map keeps its value. *)
Theorem X8_patch_touches_sources_0_only (m : gmap string value) (l : list value)
    (p : string) :
  m !! "sources" = Some (VArray l) ->
  exists (m' : gmap string value) (l' : list value),
    set_sources_0 (VObject m) p = inr (VObject m')
    /\ m' !! "sources" = Some (VArray l')
    /\ l' !! 0%nat = Some (VString p)
    /\ (forall i, (0 < i)%nat -> l' !! i = l !! i)
    /\ length l' = Nat.max 1 (length l)
    /\ (forall k, k <> "sources" -> m' !! k = m !! k).
Proof.
  intros Hs. exists (<["sources" := VArray (array_set_0 l (VString p))]> m),
    (array_set_0 l (VString p)).
  split; [cbn; now rewrite Hs |]. split; [apply lookup_insert_eq |].
  split; [now destruct l |]. split; [| split].
  - intros i Hi. destruct i as [| i]; [lia |]. now destruct l.
  - destruct l; cbn; lia.
  - intros k Hk. now apply lookup_insert_ne.
Qed.

Lemma X8_witness :
  set_sources_0 Sample.map_value "app/a.ts" =
    inr (VObject (<["sources" := VArray [VString "app/a.ts"]]>
                  (<["version" := VNumber (Int 3)]> ∅)))
  /\ exists (m' : gmap string value) (l' : list value),
       set_sources_0 Sample.map_value "app/a.ts" = inr (VObject m')
       /\ m' !! "sources" = Some (VArray l')
       /\ l' !! 0%nat = Some (VString "app/a.ts")
       /\ (forall i, (0 < i)%nat -> l' !! i = [VString "module.ts"] !! i)
       /\ length l' = Nat.max 1 (length [VString "module.ts"])
       /\ (forall k, k <> "sources" ->
             m' !! k = (<["version" := VNumber (Int 3)]>
                        (<["sources" := VArray [VString "module.ts"]]> ∅ : gmap string value))
                       !! k).
Proof.
  split; [vm_compute; reflexivity |].
  apply (X8_patch_touches_sources_0_only
           (<["version" := VNumber (Int 3)]> (<["sources" := VArray [VString "module.ts"]]> ∅))
           [VString "module.ts"] "app/a.ts").
  reflexivity.
Defined.

Lemma result_text_shape {host : Host} (compiled : TranspileOutput) :
  exists body, body <> "" /\ result_text compiled = body +:+ newline.
Proof.
  unfold result_text. destruct (String.eqb_spec (outputText compiled) "") as [He | Hne].
  - exists "[object Object]". split; [discriminate | reflexivity].
  - exists (outputText compiled). now split.
Qed.

Lemma build_result_shape {host : Host} (compiled : TranspileOutput) (p : string)
    (r : CompileResult) :
  build_result compiled p = inr r ->
  result_data r = result_text compiled
  /\ (result_map r = None <->
      sourceMapText compiled = None \/ sourceMapText compiled = Some "").
Proof.
  unfold build_result. destruct (sourceMapText compiled) as [text |].
  - destruct (String.eqb_spec text "") as [-> | Hne].
    + intros [= <-]. cbn. split; [reflexivity | split; auto].
    + destruct (JSON_parse text) as [e | rawMap]; [discriminate |].
      destruct (set_sources_0 rawMap p); [discriminate |]. intros [= <-]. cbn.
      split; [reflexivity |]. split; [discriminate |].
      intros [H | H]; [discriminate | congruence].
  - intros [= <-]. cbn. split; [reflexivity | split; auto].
Qed.

(** X9: a result object comes out of a call only when the file was not ignored,
    the transpile operation returned, and no diagnostic was left to report.  Its
    data is then a non-empty text followed by a newline, and it has a map
    exactly when the compiler's source map text is a non-empty string. *)
Theorem X9_result_implies_clean_compile {host : Host}
    (transpileModule : string -> TranspileOptions -> result TranspileOutput)
    (w : World) (params : FileRecord) (r : CompileResult) :
  (fst (IndexJs.compile params w) = inr (IndexJs.Fulfilled (Compiled r)) ->
   isIgnored (this w) (path params) = false
   /\ exists compiled,
        ts_transpileModule (data params) (tsOptions_of (this w) params) = inr compiled
        /\ IndexJs.reportable_diagnostics (this w) compiled = []
        /\ (exists body, body <> "" /\ result_data r = body +:+ newline)
        /\ (result_map r = None <->
            sourceMapText compiled = None \/ sourceMapText compiled = Some ""))
  /\ (fst (Part000.compile transpileModule params w) = inr (Compiled r) ->
      isIgnored (this w) (path params) = false
      /\ exists compiled,
           transpileModule (data params) (tsOptions_of (this w) params) = inr compiled
           /\ own_filter (this w) (diagnostics compiled) = []
           /\ (exists body, body <> "" /\ result_data r = body +:+ newline)
           /\ (result_map r = None <->
               sourceMapText compiled = None \/ sourceMapText compiled = Some "")).
Proof.
  split; intros Hres.
  - destruct (isIgnored (this w) (path params)) eqn:Hig.
    + rewrite (IndexJs_compile_ignored w params Hig) in Hres. discriminate.
    + split; [reflexivity |]. rewrite (IndexJs_compile_run w params Hig) in Hres. cbn in Hres.
      destruct (ts_transpileModule _ _) as [e | compiled]; [discriminate |].
      exists compiled. split; [reflexivity |]. unfold outcome_of in Hres.
      destruct (IndexJs.reportable_diagnostics (this w) compiled); [| discriminate].
      split; [reflexivity |].
      destruct (build_result compiled (path params)) as [e | r'] eqn:Hb; [discriminate |].
      cbn in Hres. injection Hres as <-.
      destruct (build_result_shape compiled (path params) r' Hb) as [Hdata Hmap].
      split; [rewrite Hdata; apply result_text_shape | exact Hmap].
  - destruct (isIgnored (this w) (path params)) eqn:Hig.
    + rewrite (Part000_compile_ignored transpileModule w params Hig) in Hres. discriminate.
    + split; [reflexivity |].
      rewrite (Part000_compile_run transpileModule w params Hig) in Hres. cbn in Hres.
      destruct (transpileModule _ _) as [e | compiled]; [discriminate |].
      exists compiled. split; [reflexivity |]. unfold outcome_of in Hres.
      destruct (own_filter (this w) (diagnostics compiled)); [| discriminate].
      split; [reflexivity |].
      destruct (build_result compiled (path params)) as [e | r'] eqn:Hb; [discriminate |].
      injection Hres as <-.
      destruct (build_result_shape compiled (path params) r' Hb) as [Hdata Hmap].
      split; [rewrite Hdata; apply result_text_shape | exact Hmap].
Qed.

(** The sample adapter with source maps on compiles a clean file to a result
    with a map. *)
Lemma X9_witness :
  fst (IndexJs.compile (host := Sample.node) import_file (Sample.world mapping_adapter)) =
    inr (IndexJs.Fulfilled
           (Compiled {| result_data := "import x from 'y';" +:+ newline;
                        result_map := Some (Sample.stringify
                          (VObject (<["sources" := VArray [VString "app/a.ts"]]>
                                    (<["version" := VNumber (Int 3)]> ∅)))) |}))
  /\ isIgnored mapping_adapter (path import_file) = false.
Proof.
  assert (H : fst (IndexJs.compile (host := Sample.node) import_file
                     (Sample.world mapping_adapter)) =
              inr (IndexJs.Fulfilled
                     (Compiled {| result_data := "import x from 'y';" +:+ newline;
                                  result_map := Some (Sample.stringify
                                    (VObject (<["sources" := VArray [VString "app/a.ts"]]>
                                              (<["version" := VNumber (Int 3)]> ∅)))) |})))
    by (vm_compute; reflexivity).
  split; [exact H |].
  exact (proj1 (proj1 (X9_result_implies_clean_compile (host := Sample.node) Sample.transpile
                         (Sample.world mapping_adapter) import_file _) H)).
Defined.

(** X10: a file that is not ignored costs one call of the transpile operation,
    no more, whether the call then succeeds or fails: the record of calls grows
    by the file's text with the path as file name, diagnostics requested, and
    the adapter's options. *)
Theorem X10_one_transpile_call {host : Host}
    (transpileModule : string -> TranspileOptions -> result TranspileOutput)
    (w : World) (params : FileRecord) :
  isIgnored (this w) (path params) = false ->
  let call := (data params,
               {| fileName := path params; reportDiagnostics := true;
                  compilerOptions := options (this w) |}) in
  transpile_calls (snd (IndexJs.compile params w)) = transpile_calls w ++ [call]
  /\ transpile_calls (snd (Part000.compile transpileModule params w)) =
       transpile_calls w ++ [call].
Proof.
  intros Hig. cbn zeta.
  rewrite (IndexJs_compile_run w params Hig).
  rewrite (Part000_compile_run transpileModule w params Hig).
  split; reflexivity.
Qed.

Lemma X10_witness :
  isIgnored plain_adapter (path broken_file) = false
  /\ transpile_calls
       (snd (IndexJs.compile (host := Sample.node) broken_file (Sample.world plain_adapter))) =
     [("broken", {| fileName := "app/b.ts"; reportDiagnostics := true;
                    compilerOptions := options plain_adapter |})].
Proof.
  split; [reflexivity |].
  apply (X10_one_transpile_call (host := Sample.node) Sample.transpile
           (Sample.world plain_adapter) broken_file eq_refl).
Defined.

(** X11: part_000 throws for every diagnostic its transpile helper returns and
    its own filter keeps, the fixed set included: the thrown string is the
    messages of those diagnostics joined by newlines, and with no
    [ignoreErrors] configured they are all the diagnostics returned. *)
Theorem X11_part000_failure_message {host : Host}
    (transpileModule : string -> TranspileOptions -> result TranspileOutput)
    (w : World) (file : FileRecord) (compiled : TranspileOutput) :
  isIgnored (this w) (path file) = false ->
  transpileModule (data file) (tsOptions_of (this w) file) = inr compiled ->
  own_filter (this w) (diagnostics compiled) <> [] ->
  fst (Part000.compile transpileModule file w) =
    inl (ThrownString
           (String.concat newline
              (map toMeaningfulMessage (own_filter (this w) (diagnostics compiled)))))
  /\ (ignoreAllErrors (this w) = None -> ignoreErrors (this w) = None ->
      own_filter (this w) (diagnostics compiled) = diagnostics compiled).
Proof.
  intros Hig Hts Hne. split.
  - rewrite (Part000_compile_run transpileModule w file Hig), Hts. cbn.
    destruct (own_filter (this w) (diagnostics compiled)); [congruence | reflexivity].
  - intros Hall Hset. unfold own_filter. now rewrite Hall, Hset.
Qed.

Lemma X11_witness :
  own_filter plain_adapter (diagnostics (sample_output plain_adapter import_file)) =
    [Sample.missing_module]
  /\ fst (Part000.compile (host := Sample.node) Sample.transpile import_file
            (Sample.world plain_adapter)) =
     inl (ThrownString "Error 2307: Cannot find module 'y'. (Line: 1, Col: 6)").
Proof.
  split; [reflexivity |].
  apply (X11_part000_failure_message (host := Sample.node) Sample.transpile
           (Sample.world plain_adapter) import_file
           (sample_output plain_adapter import_file) eq_refl eq_refl).
  discriminate.
Defined.

Lemma List_filter_sublist {A} (f : A -> bool) (l : list A) : sublist (List.filter f l) l.
Proof.
  induction l as [| x l IH]; cbn; [constructor |].
  destruct (f x); [now apply sublist_skip | now apply sublist_cons].
Qed.

(** X12: filtering only drops diagnostics.  What index.js reports, and what
    part_000 keeps, is a sublist of what the transpile operation returned: the
    same diagnostics in the same order, none added, none repeated. *)
Theorem X12_reportable_is_sublist (self : TypeScriptCompiler) (compiled : TranspileOutput) :
  sublist (IndexJs.reportable_diagnostics self compiled) (diagnostics compiled)
  /\ sublist (own_filter self (diagnostics compiled)) (diagnostics compiled).
Proof.
  assert (Hown : forall diag, sublist (own_filter self diag) diag).
  { intros diag. unfold own_filter.
    destruct (ignoreAllErrors self) as [[|] |]; [apply sublist_nil_l | |];
      (destruct (ignoreErrors self); [apply List_filter_sublist | reflexivity]). }
  split; [| apply Hown].
  unfold IndexJs.reportable_diagnostics.
  etransitivity; [apply Hown | apply List_filter_sublist].
Qed.

(** ** The options a construction ends with *)

Section OptionFacts.
Context {host : Host}.

Lemma get_overlay (plugin_options tsconfig_options : Options) (k : string) :
  k <> "sourceMap" -> k <> "ignore" ->
  get (overlay plugin_options tsconfig_options) k =
  merged_option plugin_options tsconfig_options k.
Proof.
  intros H1 H2. unfold get, merged_option. rewrite overlay_lookup.
  apply String.eqb_neq in H1, H2. rewrite H1, H2. cbn.
  now destruct (plugin_options !! k).
Qed.

(** What [normalize] leaves under the keys it writes. *)
Lemma normalize_written (flag : value) (o o' : Options) :
  normalize flag o = inr o' ->
  o' !! "noEmitOnError" = Some (VBool false)
  /\ o' !! "moduleResolution" = None
  /\ o' !! "sourceMap" = Some (VBool (truthy flag))
  /\ o' !! "emitDecoratorMetadata" = Some (VBool (not_false (get o "emitDecoratorMetadata")))
  /\ o' !! "experimentalDecorators" = Some (VBool (not_false (get o "experimentalDecorators")))
  /\ (exists v, resolveEnum (get o "module") ts_ModuleKind = inr v /\ o' !! "module" = Some v)
  /\ (exists v, resolveEnum (get o "target") ts_ScriptTarget = inr v /\ o' !! "target" = Some v)
  /\ (exists v, resolveEnum (get o "jsx") ts_JsxEmit = inr v /\ o' !! "jsx" = Some v).
Proof.
  unfold normalize, get, Options in *. unfold_monad. intros Hn.
  destruct (resolveEnum (default VUndefined (o !! "module")) ts_ModuleKind) as [e | m] eqn:Hm;
    [discriminate |].
  rewrite lookup_insert_ne in Hn by discriminate.
  destruct (resolveEnum (default VUndefined (o !! "target")) ts_ScriptTarget) as [e | t] eqn:Ht;
    [discriminate |].
  rewrite !lookup_insert_ne in Hn by discriminate.
  destruct (resolveEnum (default VUndefined (o !! "jsx")) ts_JsxEmit) as [e | j] eqn:Hj;
    [discriminate |].
  rewrite !lookup_insert_ne in Hn by discriminate.
  injection Hn as <-.
  repeat split;
    repeat first
      [ rewrite lookup_insert_eq
      | rewrite lookup_delete_eq
      | rewrite lookup_insert_ne by discriminate
      | rewrite lookup_delete_ne by discriminate ];
    eauto.
Qed.

(** What [finish] does to the options and to the pattern. *)
Lemma finish_options (o : Options) (ignored : string -> bool) (ext : option string)
    (self : TypeScriptCompiler) :
  finish o ignored ext = inr self ->
  pattern self = (if truthy (get o "pattern") then Some (get o "pattern") else None)
  /\ forall k,
       options self !! k =
       if String.eqb k "pattern" && truthy (get o "pattern") then None
       else if String.eqb k "ignoreErrors" && truthy (get o "ignoreErrors") then None
       else o !! k.
Proof.
  unfold finish. unfold_monad.
  assert (Hdel : forall (m : Options) (a k : string),
            delete a m !! k = if String.eqb k a then None else m !! k).
  { intros m a k. unfold Options in *. destruct (String.eqb_spec k a) as [-> | Hne].
    - apply lookup_delete_eq.
    - now apply lookup_delete_ne. }
  destruct (truthy (get o "pattern")) eqn:Hp.
  - rewrite get_delete_pattern.
    destruct (truthy (get o "ignoreErrors")) eqn:Hie.
    + assert (Hopt : forall self0 : TypeScriptCompiler,
                options self0 = delete "ignoreErrors" (delete "pattern" o) ->
                pattern self0 = Some (get o "pattern") ->
                pattern self0 = Some (get o "pattern")
                /\ forall k, options self0 !! k =
                     if String.eqb k "pattern" && true then None
                     else if String.eqb k "ignoreErrors" && true then None else o !! k).
      { intros self0 Ho Hpat. split; [exact Hpat |]. intros k. rewrite Ho, !Hdel.
        rewrite !andb_true_r.
        destruct (String.eqb_spec k "pattern") as [-> | _]; [reflexivity |].
        destruct (String.eqb k "ignoreErrors"); reflexivity. }
      destruct (get o "ignoreErrors") as [| | [|] | n | s | l | m | r];
        try (intros [= <-]; now apply Hopt);
        (destruct (new_Set _); [discriminate | intros [= <-]; now apply Hopt]).
    + intros [= <-]. cbn. split; [reflexivity |]. intros k. rewrite Hdel.
      rewrite andb_true_r, andb_false_r. now destruct (String.eqb k "pattern").
  - destruct (truthy (get o "ignoreErrors")) eqn:Hie.
    + assert (Hopt : forall self0 : TypeScriptCompiler,
                options self0 = delete "ignoreErrors" o ->
                pattern self0 = None ->
                pattern self0 = None
                /\ forall k, options self0 !! k =
                     if String.eqb k "pattern" && false then None
                     else if String.eqb k "ignoreErrors" && true then None else o !! k).
      { intros self0 Ho Hpat. split; [exact Hpat |]. intros k. rewrite Ho, Hdel.
        rewrite andb_false_r, andb_true_r. reflexivity. }
      destruct (get o "ignoreErrors") as [| | [|] | n | s | l | m | r];
        try (intros [= <-]; now apply Hopt);
        (destruct (new_Set _); [discriminate | intros [= <-]; now apply Hopt]).
    + intros [= <-]. cbn. split; [reflexivity |]. intros k.
      now rewrite !andb_false_r.
Qed.

(** A successful construction of part_000, with its target extension. *)
Lemma Part000_constructor_steps (c : Config) (self : TypeScriptCompiler) :
  Part000.constructor (Some c) = inr self ->
  exists p t o ignored,
    plugins c = Some p
    /\ Part000.getTSconfig c = inr (Some t)
    /\ normalize (sourceMaps c) (overlay (part_plugin_options p) t) = inr o
    /\ build_isIgnored (part_plugin_options p) c = inr ignored
    /\ finish o ignored
         (Some (Part000.jsx_extension (overlay (part_plugin_options p) t))) = inr self.
Proof.
  unfold Part000.constructor.
  destruct (plugins c) as [p |]; [| discriminate].
  fold (part_plugin_options p). unfold_monad.
  destruct (Part000.getTSconfig c) as [e | [t |]]; [discriminate | | discriminate].
  destruct (normalize (sourceMaps c) (overlay (part_plugin_options p) t)) as [e | o] eqn:Hn;
    [discriminate |].
  destruct (build_isIgnored (part_plugin_options p) c) as [e | ignored] eqn:Hb;
    [discriminate |].
  intros Hf. exists p, t, o, ignored. repeat split; try reflexivity; assumption.
Qed.

End OptionFacts.

Section ConstructorProperties.
Context {host : Host}.

Lemma IndexJs_constructor_steps (c : Config) (t : Options) (self : TypeScriptCompiler) :
  IndexJs.getTsconfig (index_config_root c) = Some t ->
  IndexJs.constructor (Some c) = inr self ->
  exists o ignored,
    normalize (sourceMaps c) (overlay (index_plugin_options c) t) = inr o
    /\ build_isIgnored (index_plugin_options c) c = inr ignored
    /\ finish o ignored None = inr self.
Proof.
  intros Ht Hc.
  destruct (IndexJs_constructor_inv c self Hc) as (t' & o & ignored & Ht' & Hn & Hb & Hf).
  unfold index_config_root in Ht. rewrite Ht in Ht'. injection Ht' as <-.
  now exists o, ignored.
Qed.

(** An option under a key the constructor has no rule for, as [finish] sees it. *)
Lemma normalize_get_merged (flag : value) (po t o : Options) (k : string) :
  normalize flag (overlay po t) = inr o ->
  ~ In k normalized_keys -> k <> "ignore" ->
  get o k = merged_option po t k.
Proof.
  intros Hn Hk Hig. unfold get at 1. rewrite (normalize_lookup _ _ _ k Hn Hk).
  apply get_overlay; [| exact Hig]. intros ->. apply Hk. cbn. tauto.
Qed.

Lemma filter_all_true {A} (f : A -> bool) (l : list A) :
  (forall x, In x l -> f x = true) -> List.filter f l = l.
Proof.
  induction l as [| x l IH]; intros Hall; [reflexivity |].
  cbn. rewrite (Hall x (or_introl eq_refl)). f_equal. apply IH.
  intros y Hy. apply Hall. now right.
Qed.

Lemma Set_has_no_number (s : JsSet) (c : Z) :
  (forall x, In x s -> match x with VNumber (Int _) => False | _ => True end) ->
  Set_has s c = false.
Proof.
  intros Hno. unfold Set_has. apply not_true_is_false. rewrite existsb_exists.
  intros [x [Hx Hc]]. specialize (Hno x Hx). now destruct x as [| | | [|] | | | |].
Qed.

End ConstructorProperties.

(** X13: whatever the plugin options and tsconfig.json say, an adapter either
    constructor builds has [noEmitOnError] false, no [moduleResolution], and
    [sourceMap] equal to the truthiness of the global [sourceMaps] flag; its
    two decorator options are booleans and [module], [target] and [jsx] are
    set. *)
Theorem X13_forced_compiler_options {host : Host} (c : Config) (self : TypeScriptCompiler) :
  IndexJs.constructor (Some c) = inr self \/ Part000.constructor (Some c) = inr self ->
  options self !! "noEmitOnError" = Some (VBool false)
  /\ options self !! "moduleResolution" = None
  /\ options self !! "sourceMap" = Some (VBool (truthy (sourceMaps c)))
  /\ (exists b, options self !! "emitDecoratorMetadata" = Some (VBool b))
  /\ (exists b, options self !! "experimentalDecorators" = Some (VBool b))
  /\ is_Some (options self !! "module")
  /\ is_Some (options self !! "target")
  /\ is_Some (options self !! "jsx").
Proof.
  intros Hc.
  assert (Hsteps : exists o0 o ignored ext,
            normalize (sourceMaps c) o0 = inr o /\ finish o ignored ext = inr self).
  { destruct Hc as [Hc | Hc].
    - destruct (IndexJs_constructor_inv c self Hc) as (t & o & ignored & _ & Hn & _ & Hf).
      now exists (overlay (index_plugin_options c) t), o, ignored, None.
    - destruct (Part000_constructor_steps c self Hc) as (p & t & o & ignored & _ & _ & Hn & _ & Hf).
      now exists (overlay (part_plugin_options p) t), o, ignored,
        (Some (Part000.jsx_extension (overlay (part_plugin_options p) t))). }
  destruct Hsteps as (o0 & o & ignored & ext & Hn & Hf).
  destruct (normalize_written _ _ _ Hn)
    as (H1 & H2 & H3 & H4 & H5 & (m & _ & H6) & (t & _ & H7) & (j & _ & H8)).
  destruct (finish_options o ignored ext self Hf) as [_ Hopt].
  rewrite !Hopt. cbn. rewrite H1, H2, H3, H4, H5, H6, H7, H8. repeat split; eauto.
Qed.

(** X14: a decorator option of an adapter index.js builds is off only when the
    option, plugin options laid over tsconfig.json, is the boolean [false];
    absent, or any other value, it is on. *)
Theorem X14_decorators_default_on {host : Host} (c : Config) (t : Options)
    (self : TypeScriptCompiler) (k : string) :
  IndexJs.getTsconfig (index_config_root c) = Some t ->
  IndexJs.constructor (Some c) = inr self ->
  k = "emitDecoratorMetadata" \/ k = "experimentalDecorators" ->
  exists b,
    options self !! k = Some (VBool b)
    /\ (b = false <-> merged_option (index_plugin_options c) t k = VBool false).
Proof.
  intros Ht Hc Hk.
  destruct (IndexJs_constructor_steps c t self Ht Hc) as (o & ignored & Hn & _ & Hf).
  destruct (normalize_written _ _ _ Hn) as (_ & _ & _ & H4 & H5 & _).
  destruct (finish_options o ignored None self Hf) as [_ Hopt].
  exists (not_false (merged_option (index_plugin_options c) t k)). split.
  - rewrite Hopt. destruct Hk as [-> | ->]; cbn.
    + rewrite H4. now rewrite get_overlay by discriminate.
    + rewrite H5. now rewrite get_overlay by discriminate.
  - destruct (merged_option (index_plugin_options c) t k) as [| | [|] | | | | |]; cbn;
      split; congruence.
Qed.

(** X15: under a key the constructor has no rule for, the adapter of index.js
    holds the plugin option when there is one and the tsconfig.json option
    otherwise. *)
Theorem X15_plugin_options_override_tsconfig {host : Host} (c : Config) (t : Options)
    (self : TypeScriptCompiler) (k : string) :
  IndexJs.getTsconfig (index_config_root c) = Some t ->
  IndexJs.constructor (Some c) = inr self ->
  ~ In k special_keys ->
  options self !! k =
    match index_plugin_options c !! k with
    | Some v => Some v
    | None => t !! k
    end.
Proof.
  intros Ht Hc Hk.
  destruct (IndexJs_constructor_steps c t self Ht Hc) as (o & ignored & Hn & _ & Hf).
  destruct (finish_options o ignored None self Hf) as [_ Hopt].
  assert (Hk' : ~ In k normalized_keys).
  { intros H. apply Hk. unfold special_keys. apply in_or_app. now left. }
  assert (Hne : k <> "pattern" /\ k <> "ignoreErrors" /\ k <> "ignore" /\ k <> "sourceMap").
  { repeat split; intros ->; apply Hk; unfold special_keys; cbn; tauto. }
  destruct Hne as (Hp & Hie & Hig & Hsm).
  rewrite Hopt. apply String.eqb_neq in Hp, Hie. rewrite Hp, Hie. cbn.
  rewrite (normalize_lookup _ _ _ k Hn Hk'), overlay_lookup.
  apply String.eqb_neq in Hig, Hsm. now rewrite Hig, Hsm.
Qed.

(** X16: a truthy [pattern] option becomes the adapter's pattern and leaves the
    compiler options; a falsy or absent one leaves the adapter with the
    prototype's [/\.tsx?$/], and a falsy one stays among the compiler
    options. *)
Theorem X16_pattern_option {host : Host} (c : Config) (t : Options)
    (self : TypeScriptCompiler) :
  IndexJs.getTsconfig (index_config_root c) = Some t ->
  IndexJs.constructor (Some c) = inr self ->
  let v := merged_option (index_plugin_options c) t "pattern" in
  if truthy v
  then get_pattern self = v /\ options self !! "pattern" = None
  else get_pattern self = prototype_pattern
       /\ options self !! "pattern" =
            match index_plugin_options c !! "pattern" with
            | Some x => Some x
            | None => t !! "pattern"
            end.
Proof.
  intros Ht Hc v.
  destruct (IndexJs_constructor_steps c t self Ht Hc) as (o & ignored & Hn & _ & Hf).
  destruct (finish_options o ignored None self Hf) as [Hpat Hopt].
  assert (Hk : ~ In "pattern" normalized_keys).
  { cbn. intros H. repeat (destruct H as [H | H]; [discriminate H |]). exact H. }
  assert (Hget : get o "pattern" = v)
    by (apply (normalize_get_merged _ _ _ _ _ Hn Hk); discriminate).
  rewrite Hget in Hpat. specialize (Hopt "pattern"). rewrite Hget in Hopt. cbn in Hopt.
  unfold get_pattern. rewrite Hpat. destruct (truthy v).
  - split; [reflexivity | exact Hopt].
  - split; [reflexivity |]. rewrite Hopt, (normalize_lookup _ _ _ _ Hn Hk), overlay_lookup.
    reflexivity.
Qed.

(** X17: an [ignoreErrors] option that is truthy, not [true], and not iterable
    (a single code in place of a list, a plain object) makes the construction
    of index.js throw. *)
Theorem X17_ignoreErrors_must_be_iterable {host : Host} (c : Config) (t : Options) :
  IndexJs.getTsconfig (index_config_root c) = Some t ->
  not_iterable (merged_option (index_plugin_options c) t "ignoreErrors") ->
  exists e, IndexJs.constructor (Some c) = inl e.
Proof.
  intros Ht Hv. destruct (IndexJs.constructor (Some c)) as [e | self] eqn:Hc; [eauto |].
  exfalso.
  destruct (IndexJs_constructor_steps c t self Ht Hc) as (o & ignored & Hn & _ & Hf).
  assert (Hk : ~ In "ignoreErrors" normalized_keys).
  { cbn. intros H. repeat (destruct H as [H | H]; [discriminate H |]). exact H. }
  assert (Hget : get o "ignoreErrors" = merged_option (index_plugin_options c) t "ignoreErrors")
    by (apply (normalize_get_merged _ _ _ _ _ Hn Hk); discriminate).
  apply finish_ignoreErrors in Hf as (_ & _ & Hie). rewrite Hget in Hie.
  destruct (merged_option (index_plugin_options c) t "ignoreErrors")
    as [| | b | [| z] | s | l | m | r]; cbn in Hv; try contradiction.
  - destruct Hie as [_ Hie]. cbn in Hie. apply Z.eqb_neq in Hv. rewrite Hv in Hie. cbn in Hie.
    destruct Hie as (s & Hs & _). discriminate.
  - destruct Hie as [_ (s & Hs & _)]. discriminate.
  - destruct Hie as [_ (s & Hs & _)]. discriminate.
Qed.

(** X18: an [ignoreErrors] without a number in it, a string or a list of codes
    written as strings, is accepted and suppresses nothing: the adapter reports
    every diagnostic outside the fixed set. *)
Theorem X18_string_codes_suppress_nothing {host : Host} (c : Config) (t : Options)
    (self : TypeScriptCompiler) (compiled : TranspileOutput) :
  IndexJs.getTsconfig (index_config_root c) = Some t ->
  IndexJs.constructor (Some c) = inr self ->
  no_numeric_member (merged_option (index_plugin_options c) t "ignoreErrors") ->
  IndexJs.reportable_diagnostics self compiled =
    List.filter (fun err => negb (ignoredErrors_has (code err))) (diagnostics compiled).
Proof.
  intros Ht Hc Hv.
  destruct (IndexJs_constructor_steps c t self Ht Hc) as (o & ignored & Hn & _ & Hf).
  assert (Hk : ~ In "ignoreErrors" normalized_keys).
  { cbn. intros H. repeat (destruct H as [H | H]; [discriminate H |]). exact H. }
  assert (Hget : get o "ignoreErrors" = merged_option (index_plugin_options c) t "ignoreErrors")
    by (apply (normalize_get_merged _ _ _ _ _ Hn Hk); discriminate).
  apply finish_ignoreErrors in Hf as (_ & _ & Hie). rewrite Hget in Hie.
  unfold IndexJs.reportable_diagnostics, own_filter.
  destruct (merged_option (index_plugin_options c) t "ignoreErrors")
    as [| | b | n | s | l | m | r]; cbn in Hv; try contradiction.
  - destruct Hie as [Hall Hie]. cbn in Hie. apply String.eqb_neq in Hv. rewrite Hv in Hie.
    cbn in Hie. destruct Hie as (st & [= <-] & Hset). rewrite Hall, Hset.
    apply filter_all_true. intros x _. rewrite Set_has_no_number; [reflexivity |].
    intros y Hy. apply in_map_iff in Hy as (ch & <- & _). exact I.
  - destruct Hie as [Hall (st & [= <-] & Hset)]. rewrite Hall, Hset.
    apply filter_all_true. intros x _. now rewrite Set_has_no_number.
Qed.

(** X19: a falsy [ignoreErrors] option ([false], 0, the empty string) sets no
    filter and is not removed: it stays among the options passed to the
    compiler; a truthy one is removed. *)
Theorem X19_falsy_ignoreErrors_stays {host : Host} (c : Config) (t : Options)
    (self : TypeScriptCompiler) :
  IndexJs.getTsconfig (index_config_root c) = Some t ->
  IndexJs.constructor (Some c) = inr self ->
  let v := merged_option (index_plugin_options c) t "ignoreErrors" in
  if truthy v
  then options self !! "ignoreErrors" = None
  else ignoreAllErrors self = None
       /\ ignoreErrors self = None
       /\ options self !! "ignoreErrors" =
            match index_plugin_options c !! "ignoreErrors" with
            | Some x => Some x
            | None => t !! "ignoreErrors"
            end.
Proof.
  intros Ht Hc v.
  destruct (IndexJs_constructor_steps c t self Ht Hc) as (o & ignored & Hn & _ & Hf).
  assert (Hk : ~ In "ignoreErrors" normalized_keys).
  { cbn. intros H. repeat (destruct H as [H | H]; [discriminate H |]). exact H. }
  assert (Hget : get o "ignoreErrors" = v)
    by (apply (normalize_get_merged _ _ _ _ _ Hn Hk); discriminate).
  destruct (finish_options o ignored None self Hf) as [_ Hopt].
  specialize (Hopt "ignoreErrors"). rewrite Hget in Hopt. cbn in Hopt.
  apply finish_ignoreErrors in Hf as (_ & _ & Hie). rewrite Hget in Hie.
  destruct (truthy v) eqn:Htr; [exact Hopt |].
  assert (Hfilter : ignoreAllErrors self = None /\ ignoreErrors self = None).
  { destruct v as [| | [|] | n | s | l | m | r]; try discriminate Htr;
      destruct Hie as [Hall Hie]; rewrite ?Htr in Hie; now split. }
  destruct Hfilter as [Hall Hset]. split; [exact Hall |]. split; [exact Hset |].
  rewrite Hopt, (normalize_lookup _ _ _ _ Hn Hk), overlay_lookup. reflexivity.
Qed.

Lemma assorted_constructs :
  IndexJs.constructor (host := Sample.node) (Some (Sample.config assorted_options false)) =
    inr (index_adapter (Sample.config assorted_options false)).
Proof. vm_compute. reflexivity. Qed.

Lemma X13_witness :
  assorted_options !! "sourceMap" = Some (VBool true)
  /\ assorted_options !! "noEmitOnError" = Some (VBool true)
  /\ options (index_adapter (Sample.config assorted_options false)) !! "sourceMap" =
       Some (VBool false)
  /\ options (index_adapter (Sample.config assorted_options false)) !! "noEmitOnError" =
       Some (VBool false)
  /\ options (index_adapter (Sample.config assorted_options false)) !! "moduleResolution" =
       None.
Proof.
  pose proof (X13_forced_compiler_options (host := Sample.node)
                (Sample.config assorted_options false) _ (or_introl assorted_constructs))
    as (H1 & H2 & H3 & _).
  split; [reflexivity |]. split; [reflexivity |].
  split; [exact H3 |]. split; [exact H1 | exact H2].
Defined.

Lemma X14_witness :
  options (index_adapter (Sample.config assorted_options false)) !! "emitDecoratorMetadata" =
    Some (VBool false)
  /\ options (index_adapter (Sample.config assorted_options false)) !! "experimentalDecorators" =
    Some (VBool true).
Proof.
  split.
  - destruct (X14_decorators_default_on (host := Sample.node)
                (Sample.config assorted_options false) sample_tsconfig _
                "emitDecoratorMetadata" eq_refl assorted_constructs (or_introl eq_refl))
      as (b & Hb & Hiff).
    rewrite Hb. f_equal. f_equal. now apply Hiff.
  - destruct (X14_decorators_default_on (host := Sample.node)
                (Sample.config assorted_options false) sample_tsconfig _
                "experimentalDecorators" eq_refl assorted_constructs (or_intror eq_refl))
      as (b & Hb & Hiff).
    rewrite Hb. f_equal. f_equal. destruct b; [reflexivity |].
    now pose proof (proj1 Hiff eq_refl).
Defined.

Lemma X15_witness :
  options (index_adapter (Sample.config assorted_options false)) !! "strict" =
    Some (VBool true)
  /\ options (index_adapter (Sample.config assorted_options false)) !! "lib" = None.
Proof.
  split.
  - apply (X15_plugin_options_override_tsconfig (host := Sample.node)
             (Sample.config assorted_options false) sample_tsconfig _ "strict"
             eq_refl assorted_constructs).
    cbn. intros H. repeat (destruct H as [H | H]; [discriminate H |]). exact H.
  - apply (X15_plugin_options_override_tsconfig (host := Sample.node)
             (Sample.config assorted_options false) sample_tsconfig _ "lib"
             eq_refl assorted_constructs).
    cbn. intros H. repeat (destruct H as [H | H]; [discriminate H |]). exact H.
Defined.

Lemma custom_constructs :
  IndexJs.constructor (host := Sample.node) (Some (Sample.config custom_options false)) =
    inr (index_adapter (Sample.config custom_options false)).
Proof. vm_compute. reflexivity. Qed.

Lemma X16_witness :
  get_pattern (index_adapter (Sample.config custom_options false)) = VRegExp "\.mts$"
  /\ options (index_adapter (Sample.config custom_options false)) !! "pattern" = None.
Proof.
  apply (X16_pattern_option (host := Sample.node) (Sample.config custom_options false)
           sample_tsconfig _ eq_refl custom_constructs).
Defined.

Lemma X17_witness :
  not_iterable (VNumber (Int 1005))
  /\ exists e,
       IndexJs.constructor (host := Sample.node) (Some (Sample.config single_code_options false)) =
       inl e.
Proof.
  split; [cbn; lia |].
  apply (X17_ignoreErrors_must_be_iterable (host := Sample.node)
           (Sample.config single_code_options false) sample_tsconfig eq_refl).
  vm_compute. discriminate.
Defined.

Lemma string_codes_constructs :
  IndexJs.constructor (host := Sample.node) (Some (Sample.config string_codes_options false)) =
    inr (index_adapter (Sample.config string_codes_options false)).
Proof. vm_compute. reflexivity. Qed.

Lemma X18_witness :
  IndexJs.reportable_diagnostics (index_adapter (Sample.config string_codes_options false))
    (sample_output plain_adapter broken_file) =
  [Sample.semicolon_expected; Sample.no_file].
Proof.
  rewrite (X18_string_codes_suppress_nothing (host := Sample.node)
             (Sample.config string_codes_options false) sample_tsconfig _
             (sample_output plain_adapter broken_file) eq_refl string_codes_constructs).
  - reflexivity.
  - vm_compute. intros x [<- | [<- | []]]; exact I.
Defined.

Lemma X19_witness :
  ignoreAllErrors (index_adapter (Sample.config assorted_options false)) = None
  /\ ignoreErrors (index_adapter (Sample.config assorted_options false)) = None
  /\ options (index_adapter (Sample.config assorted_options false)) !! "ignoreErrors" =
       Some (VBool false).
Proof.
  apply (X19_falsy_ignoreErrors_stays (host := Sample.node)
           (Sample.config assorted_options false) sample_tsconfig _ eq_refl assorted_constructs).
Defined.

(** X20: the [ignore] option replaces the vendor convention, it does not add
    to it.  With a truthy [ignore] in the plugin options the adapter's ignore
    predicate is anymatch of that option alone, in both variants; without one
    it is anymatch of [config.conventions.vendor]. *)
Theorem X20_ignore_replaces_vendor {host : Host} (c : Config) (self : TypeScriptCompiler) :
  (IndexJs.constructor (Some c) = inr self ->
   let ignore := get (index_plugin_options c) "ignore" in
   if truthy ignore then anymatch ignore = inr (isIgnored self)
   else exists conv, conventions c = Some conv /\ anymatch (vendor conv) = inr (isIgnored self))
  /\ (forall p, plugins c = Some p ->
        Part000.constructor (Some c) = inr self ->
        let ignore := get (part_plugin_options p) "ignore" in
        if truthy ignore then anymatch ignore = inr (isIgnored self)
        else exists conv,
               conventions c = Some conv /\ anymatch (vendor conv) = inr (isIgnored self)).
Proof.
  assert (Hbuild : forall po ignored,
            build_isIgnored po c = inr ignored ->
            if truthy (get po "ignore") then anymatch (get po "ignore") = inr ignored
            else exists conv, conventions c = Some conv /\ anymatch (vendor conv) = inr ignored).
  { intros po ignored. unfold build_isIgnored. destruct (truthy (get po "ignore")); [easy |].
    destruct (conventions c) as [conv |]; [eauto | discriminate]. }
  split.
  - intros Hc. cbn zeta.
    destruct (IndexJs_constructor_inv c self Hc) as (t & o & ignored & _ & _ & Hb & Hf).
    apply finish_ignoreErrors in Hf as (-> & _). now apply Hbuild.
  - intros p Hp Hc. cbn zeta.
    destruct (Part000_constructor_steps c self Hc) as (p' & t & o & ignored & Hp' & _ & _ & Hb & Hf).
    rewrite Hp in Hp'. injection Hp' as <-.
    apply finish_ignoreErrors in Hf as (-> & _). now apply Hbuild.
Qed.

(** With [ignore: 'lib/'] a vendor file is compiled like any other. *)
Lemma X20_witness :
  isIgnored (index_adapter (Sample.config custom_options false)) "lib/x.ts" = true
  /\ isIgnored (index_adapter (Sample.config custom_options false)) "vendor/jquery.ts" = false
  /\ anymatch (Host := Sample.node) (VString "lib/") =
       inr (isIgnored (index_adapter (Sample.config custom_options false))).
Proof.
  split; [reflexivity |]. split; [reflexivity |].
  exact (proj1 (X20_ignore_replaces_vendor (host := Sample.node)
                  (Sample.config custom_options false) _) custom_constructs).
Defined.

(** X21: a tsconfig.json that loads but has no [compilerOptions] is not taken
    for an empty mapping: [this.options] is [undefined] and both constructors
    throw a TypeError. *)
Theorem X21_tsconfig_without_compilerOptions {host : Host} (c : Config) (r : string)
    (tsconfig : tsconfig_json) :
  index_config_root c = Some r ->
  r <> "" ->
  require_ (path_resolve r "tsconfig.json") = inr tsconfig ->
  tsconfig_compilerOptions tsconfig = None ->
  (exists msg, IndexJs.constructor (Some c) = inl (TypeError msg))
  /\ (exists msg, Part000.constructor (Some c) = inl (TypeError msg)).
Proof.
  intros Hroot Hne Hreq Hnone. apply String.eqb_neq in Hne.
  unfold index_config_root in Hroot. split.
  - unfold IndexJs.constructor. cbn. rewrite Hroot. unfold IndexJs.getTsconfig.
    rewrite Hne, Hreq, Hnone. eauto.
  - unfold Part000.constructor. destruct (plugins c) as [p |]; [| eauto].
    unfold Part000.getTSconfig. destruct (paths c) as [ps |]; [| discriminate].
    rewrite Hroot, Hreq, Hnone. cbn. eauto.
Qed.

Lemma X21_witness :
  Sample.require_json (Sample.resolve_path "/bare" "tsconfig.json") =
    inr {| tsconfig_compilerOptions := None |}
  /\ (exists msg, IndexJs.constructor (host := Sample.node) (Some bare_config) =
                  inl (TypeError msg))
  /\ (exists msg, Part000.constructor (host := Sample.node) (Some bare_config) =
                  inl (TypeError msg)).
Proof.
  split; [reflexivity |].
  apply (X21_tsconfig_without_compilerOptions (host := Sample.node) bare_config "/bare"
           {| tsconfig_compilerOptions := None |} eq_refl ltac:(discriminate) eq_refl eq_refl).
Defined.

(** ** More on [resolveEnum] *)

(** X22: [resolveEnum] throws in one case only: a choice that is an array, a
    plain object or a regular expression, does not convert to a number, and
    meets a table with at least one key.  What it throws then is a TypeError.
    Every other choice, [null], booleans and numbers included, resolves. *)
Theorem X22_resolveEnum_throws_on_objects_only {host : Host} (choice : value)
    (opts : enum_table) :
  (forall e, resolveEnum choice opts = inl e ->
     match choice with
     | VArray _ | VObject _ | VRegExp _ => True
     | _ => False
     end
     /\ ToNumber choice = NaN
     /\ opts <> []
     /\ exists msg, e = TypeError msg)
  /\ (match choice with
      | VArray _ | VObject _ | VRegExp _ => True
      | _ => False
      end ->
      ToNumber choice = NaN -> opts <> [] ->
      exists msg, resolveEnum choice opts = inl (TypeError msg)).
Proof.
  split.
  - intros e. unfold resolveEnum, isNaN.
    destruct (truthy choice) eqn:Htr; cbn; [| discriminate].
    destruct (ToNumber choice) as [| z] eqn:Hnum; cbn; [| discriminate].
    destruct choice as [| | [|] | n | s | l | m | r]; cbn in Htr, Hnum; try discriminate.
    + subst n. discriminate.
    + destruct (resolveEnum_loop _ _ _); discriminate.
    + destruct opts as [| kv opts]; cbn; [discriminate |].
      intros [= <-]. repeat split; try discriminate; eauto.
    + destruct opts as [| kv opts]; cbn; [discriminate |].
      intros [= <-]. repeat split; try discriminate; eauto.
    + destruct opts as [| kv opts]; cbn; [discriminate |].
      intros [= <-]. repeat split; try discriminate; eauto.
  - intros Hobj Hnan Hne. unfold resolveEnum, isNaN. rewrite Hnan.
    destruct choice as [| | b | n | s | l | m | r]; try contradiction; cbn;
      (destruct opts as [| kv opts]; [congruence | cbn; eauto]).
Qed.

(** X23: two names that differ in case only resolve alike, against any table. *)
Theorem X23_resolveEnum_ignores_case {host : Host} (s1 s2 : string) (opts : enum_table) :
  s1 <> "" -> s2 <> "" ->
  StringToNumber s1 = NaN -> StringToNumber s2 = NaN ->
  toUpperCase s1 = toUpperCase s2 ->
  resolveEnum (VString s1) opts = resolveEnum (VString s2) opts.
Proof.
  intros H1 H2 Hn1 Hn2 Hup.
  rewrite (resolveEnum_string s1 opts H1 Hn1), (resolveEnum_string s2 opts H2 Hn2).
  f_equal. f_equal. generalize (Object_keys opts) as keys.
  induction keys as [| k keys IH]; cbn; [reflexivity |]. now rewrite Hup, IH.
Qed.

Lemma X23_witness :
  resolveEnum (host := Sample.node) (VString "commonjs") Sample.ModuleKind =
    resolveEnum (host := Sample.node) (VString "CommonJS") Sample.ModuleKind
  /\ resolveEnum (host := Sample.node) (VString "CommonJS") Sample.ModuleKind =
       inr (VNumber (Int 1)).
Proof.
  split; [| reflexivity].
  apply (X23_resolveEnum_ignores_case (host := Sample.node) "commonjs" "CommonJS"
           Sample.ModuleKind); first [discriminate | reflexivity].
Defined.

(** ** part_000 only *)

(** X24: part_000 sets [targetExtension] to [jsx] only when the [jsx] option,
    plugin options laid over tsconfig.json, is the string [preserve] in lower
    case, and to [js] otherwise: also when the option is absent, or is spelled
    [Preserve], both of which [resolveEnum] then resolves for the compiler. *)
Theorem X24_targetExtension {host : Host} (c : Config) (p : Plugins) (t : Options)
    (self : TypeScriptCompiler) :
  plugins c = Some p ->
  Part000.getTSconfig c = inr (Some t) ->
  Part000.constructor (Some c) = inr self ->
  targetExtension self =
    Some match merged_option (part_plugin_options p) t "jsx" with
         | VString s => if String.eqb s "preserve" then "jsx" else "js"
         | _ => "js"
         end
  /\ exists v,
       resolveEnum (merged_option (part_plugin_options p) t "jsx") ts_JsxEmit = inr v
       /\ options self !! "jsx" = Some v.
Proof.
  intros Hp Ht Hc.
  destruct (Part000_constructor_steps c self Hc)
    as (p' & t' & o & ignored & Hp' & Ht' & Hn & _ & Hf).
  rewrite Hp in Hp'. injection Hp' as <-. rewrite Ht in Ht'. injection Ht' as <-.
  destruct (finish_options o ignored _ self Hf) as [_ Hopt].
  apply finish_ignoreErrors in Hf as (_ & Hext & _). split.
  - rewrite Hext. unfold Part000.jsx_extension. now rewrite get_overlay by discriminate.
  - destruct (normalize_written _ _ _ Hn) as (_ & _ & _ & _ & _ & _ & _ & (v & Hv & Hj)).
    exists v. rewrite get_overlay in Hv by discriminate. split; [exact Hv |].
    rewrite Hopt. cbn. exact Hj.
Qed.

Lemma X24_witness :
  Part000.constructor (host := Sample.node) (Some (Sample.config preserve_options false)) =
    inr (part_adapter (Sample.config preserve_options false))
  /\ targetExtension (part_adapter (Sample.config preserve_options false)) = Some "js"
  /\ options (part_adapter (Sample.config preserve_options false)) !! "jsx" =
       Some (VNumber (Int 1)).
Proof.
  assert (Hc : Part000.constructor (host := Sample.node)
                 (Some (Sample.config preserve_options false)) =
               inr (part_adapter (Sample.config preserve_options false)))
    by (vm_compute; reflexivity).
  split; [exact Hc |].
  destruct (X24_targetExtension (host := Sample.node) (Sample.config preserve_options false)
              {| typescript := None; brunchTypescript := Some preserve_options |}
              sample_tsconfig _ eq_refl eq_refl Hc) as (Hext & v & Hv & Hj).
  split; [exact Hext |]. rewrite Hj. f_equal.
  assert (Hv' : resolveEnum (host := Sample.node) (VString "Preserve") Sample.JsxEmit = inr v)
    by exact Hv.
  vm_compute in Hv'. now injection Hv' as <-.
Defined.

(** X25: index.js does not read [plugins.typescript]; part_000 does not read
    [plugins.brunchTypescript] when [plugins.typescript] is there: the options
    under the two keys are never combined. *)
Theorem X25_plugin_keys_are_not_merged {host : Host} (c : Config)
    (ts ts' bt bt' : option Options) (o : Options) :
  plugins c = Some {| typescript := ts; brunchTypescript := bt |} ->
  IndexJs.constructor (Some c) =
    IndexJs.constructor (Some (with_plugins c {| typescript := ts'; brunchTypescript := bt |}))
  /\ (ts = Some o ->
      Part000.constructor (Some c) =
        Part000.constructor
          (Some (with_plugins c {| typescript := ts; brunchTypescript := bt' |}))).
Proof.
  intros Hp. destruct c as [pl ps sm cv]. cbn in Hp. subst pl. split.
  - reflexivity.
  - intros ->. reflexivity.
Qed.

Lemma X25_witness :
  plugins both_keys_config =
    Some {| typescript := Some ignore_1005_options;
            brunchTypescript := Some ignore_all_options |}
  /\ IndexJs.constructor (host := Sample.node) (Some both_keys_config) =
       IndexJs.constructor (host := Sample.node)
         (Some (with_plugins both_keys_config
                  {| typescript := None; brunchTypescript := Some ignore_all_options |}))
  /\ ignoreAllErrors (index_adapter both_keys_config) = Some true
  /\ ignoreAllErrors (part_adapter both_keys_config) = None.
Proof.
  split; [reflexivity |]. split.
  - exact (proj1 (X25_plugin_keys_are_not_merged (host := Sample.node) both_keys_config
                    (Some ignore_1005_options) None (Some ignore_all_options) None
                    ignore_1005_options eq_refl)).
  - split; vm_compute; reflexivity.
Defined.

(** ** The constructor and the cached tsconfig module *)

Section CacheFacts.
Context {host : Host}.

(** Run on the content of the object, the statements of the constructor build
    what [normalize], [build_isIgnored] and [finish] build, and leave the
    adapter's options in the object. *)
Lemma Cached_body_spec (po : Options) (c : Config) (o0 : Options) :
  fst (Cached.body po c o0) =
    (o ← normalize (sourceMaps c) (overlay po o0);
     ignored ← build_isIgnored po c;
     finish o ignored None)
  /\ forall self, fst (Cached.body po c o0) = inr self ->
                  snd (Cached.body po c o0) = options self.
Proof.
  unfold Cached.body, Cached.assign, Cached.remove, Cached.read, normalize, finish.
  unfold_monad. cbn.
  destruct (resolveEnum (get (overlay po o0) "module") ts_ModuleKind) as [e | m]; cbn;
    [split; [reflexivity | discriminate] |].
  destruct (resolveEnum _ ts_ScriptTarget) as [e | t]; cbn;
    [split; [reflexivity | discriminate] |].
  destruct (resolveEnum _ ts_JsxEmit) as [e | j]; cbn;
    [split; [reflexivity | discriminate] |].
  destruct (build_isIgnored po c) as [e | ignored]; cbn;
    [split; [reflexivity | discriminate] |].
  match goal with
  | |- context [truthy (get ?o "pattern")] => destruct (truthy (get o "pattern")); cbn
  end.
  all: match goal with
       | |- context [truthy (get ?o "ignoreErrors")] =>
           destruct (truthy (get o "ignoreErrors")); cbn;
           [destruct (get o "ignoreErrors") as [| | [|] | n | s | l | m' | r]; cbn;
            try (split; [reflexivity | now intros self [= <-]]);
            (destruct (new_Set _); cbn; split;
             first [reflexivity | discriminate | now intros self [= <-]])
           | split; [reflexivity | now intros self [= <-]]]
       end.
Qed.

(** With nothing loaded yet, the constructor with the cache builds what the
    constructor without it builds. *)
Lemma Cached_constructor_agrees (config : option Config) :
  fst (Cached.constructor config ∅) = IndexJs.constructor config.
Proof.
  unfold Cached.constructor, IndexJs.constructor, Cached.getTsconfig, IndexJs.getTsconfig,
    Cached.run_body, Cached.require_compilerOptions.
  set (c := default empty_config config).
  set (po := match plugins c with Some p => default ∅ (brunchTypescript p) | None => ∅ end).
  unfold_monad.
  assert (Hlit : fst (let '(r, content) := Cached.body po c ∅ in (r, (∅ : Cached.ModuleCache))) =
                 (o ← normalize (sourceMaps c) (overlay po ∅);
                  ignored ← build_isIgnored po c; finish o ignored None)).
  { destruct (Cached.body po c ∅) as [r content] eqn:Hb. cbn.
    pose proof (proj1 (Cached_body_spec po c ∅)) as H. rewrite Hb in H. exact H. }
  unfold_monad.
  destruct (match paths c with Some p => root p | None => None end) as [r |]; [| exact Hlit].
  destruct (String.eqb r ""); [exact Hlit |].
  replace ((∅ : Cached.ModuleCache) !! path_resolve r "tsconfig.json")
    with (@None (option Options)) by (symmetry; apply lookup_empty).
  destruct (require_ (path_resolve r "tsconfig.json")) as [e | [[t |]]]; cbn;
    [exact Hlit | | reflexivity].
  destruct (Cached.body po c t) as [res content] eqn:Hb. cbn.
  pose proof (proj1 (Cached_body_spec po c t)) as H. rewrite Hb in H. exact H.
Qed.

End CacheFacts.

Section CacheProperties.
Context {host : Host}.

(** A construction whose tsconfig module is in the cache already runs on the
    cached content. *)
Lemma Cached_constructor_from_cache (c : Config) (r : string) (t : Options)
    (cache : Cached.ModuleCache) :
  index_config_root c = Some r -> r <> "" ->
  cache !! path_resolve r "tsconfig.json" = Some (Some t) ->
  Cached.constructor (Some c) cache =
    (fst (Cached.body (index_plugin_options c) c t),
     <[path_resolve r "tsconfig.json" := Some (snd (Cached.body (index_plugin_options c) c t))]>
       cache).
Proof.
  intros Hroot Hne Hcache. apply String.eqb_neq in Hne. unfold index_config_root in Hroot.
  unfold Cached.constructor, Cached.getTsconfig, Cached.run_body,
    Cached.require_compilerOptions.
  change (default empty_config (Some c)) with c. cbv zeta.
  fold (index_plugin_options c). rewrite Hroot, Hne. unfold_monad.
  rewrite Hcache. now destruct (Cached.body (index_plugin_options c) c t).
Qed.

(** A construction that loads the tsconfig module itself runs on what it
    loaded, and caches what the body leaves. *)
Lemma Cached_constructor_loading (c : Config) (r : string) (t : Options)
    (tsconfig : tsconfig_json) (cache : Cached.ModuleCache) :
  index_config_root c = Some r -> r <> "" ->
  cache !! path_resolve r "tsconfig.json" = None ->
  require_ (path_resolve r "tsconfig.json") = inr tsconfig ->
  tsconfig_compilerOptions tsconfig = Some t ->
  Cached.constructor (Some c) cache =
    (fst (Cached.body (index_plugin_options c) c t),
     <[path_resolve r "tsconfig.json" := Some (snd (Cached.body (index_plugin_options c) c t))]>
       (<[path_resolve r "tsconfig.json" := Some t]> cache)).
Proof.
  intros Hroot Hne Hcache Hreq Ht. apply String.eqb_neq in Hne.
  unfold index_config_root in Hroot.
  unfold Cached.constructor, Cached.getTsconfig, Cached.run_body,
    Cached.require_compilerOptions.
  change (default empty_config (Some c)) with c. cbv zeta.
  fold (index_plugin_options c). rewrite Hroot, Hne. unfold_monad.
  rewrite Hcache, Hreq, Ht. now destruct (Cached.body (index_plugin_options c) c t).
Qed.

(** Once a construction has succeeded, the options it read under a key it
    removes when truthy are falsy in the adapter's options. *)
Lemma finished_option_is_falsy (o : Options) (ignored : string -> bool)
    (ext : option string) (self : TypeScriptCompiler) (k : string) :
  finish o ignored ext = inr self ->
  k = "pattern" \/ k = "ignoreErrors" ->
  truthy (get (options self) k) = false.
Proof.
  intros Hf Hk. destruct (finish_options o ignored ext self Hf) as [_ Hopt].
  unfold get at 1. rewrite Hopt. destruct Hk as [-> | ->]; cbn.
  - destruct (truthy (get o "pattern")) eqn:Hp; [reflexivity |].
    destruct (truthy (get o "ignoreErrors")); exact Hp.
  - destruct (truthy (get o "ignoreErrors")) eqn:Hie; [reflexivity | exact Hie].
Qed.

End CacheProperties.

(** X26: the constructor of index.js writes into the tsconfig module that
    [require] caches.  After a construction that loaded tsconfig.json and
    succeeded, the cached module's [compilerOptions] are the adapter's options,
    plugin options merged in and normalized, and no other cached module has
    changed. *)
Theorem X26_construction_rewrites_cached_tsconfig {host : Host} (c : Config) (r : string)
    (tsconfig : tsconfig_json) (t : Options) (self : TypeScriptCompiler)
    (cache cache' : Cached.ModuleCache) :
  index_config_root c = Some r -> r <> "" ->
  cache !! path_resolve r "tsconfig.json" = None ->
  require_ (path_resolve r "tsconfig.json") = inr tsconfig ->
  tsconfig_compilerOptions tsconfig = Some t ->
  Cached.constructor (Some c) cache = (inr self, cache') ->
  cache' !! path_resolve r "tsconfig.json" = Some (Some (options self))
  /\ (forall f, f <> path_resolve r "tsconfig.json" -> cache' !! f = cache !! f).
Proof.
  intros Hroot Hne Hcache Hreq Ht Hc.
  rewrite (Cached_constructor_loading c r t tsconfig cache Hroot Hne Hcache Hreq Ht) in Hc.
  injection Hc as Hres <-.
  rewrite (proj2 (Cached_body_spec (index_plugin_options c) c t) self Hres).
  unfold Cached.ModuleCache in *. split.
  - apply lookup_insert_eq.
  - intros f Hf. rewrite !lookup_insert_ne by congruence. reflexivity.
Qed.

(** X27: a second construction from the same configuration does not see the
    tsconfig.json the first one saw.  When the plugin options set neither
    [ignoreErrors] nor [pattern], the second adapter has no diagnostic filter
    and the prototype's pattern, whatever tsconfig.json says and whatever the
    first adapter got from it. *)
Theorem X27_second_construction_forgets_tsconfig {host : Host} (c : Config) (r : string)
    (tsconfig : tsconfig_json) (t : Options) (self1 self2 : TypeScriptCompiler)
    (cache1 : Cached.ModuleCache) :
  index_config_root c = Some r -> r <> "" ->
  require_ (path_resolve r "tsconfig.json") = inr tsconfig ->
  tsconfig_compilerOptions tsconfig = Some t ->
  index_plugin_options c !! "ignoreErrors" = None ->
  index_plugin_options c !! "pattern" = None ->
  Cached.constructor (Some c) ∅ = (inr self1, cache1) ->
  fst (Cached.constructor (Some c) cache1) = inr self2 ->
  ignoreAllErrors self2 = None
  /\ ignoreErrors self2 = None
  /\ get_pattern self2 = prototype_pattern.
Proof.
  intros Hroot Hne Hreq Ht Hie Hpat Hc1 Hc2.
  assert (Hempty : (∅ : Cached.ModuleCache) !! path_resolve r "tsconfig.json" = None)
    by apply lookup_empty.
  pose proof (Cached_constructor_loading c r t tsconfig ∅ Hroot Hne Hempty Hreq Ht) as Hrun.
  rewrite Hc1 in Hrun. injection Hrun as Hres1 Hcache1.
  destruct (Cached_body_spec (index_plugin_options c) c t) as [Hpipe1 Hleft1].
  rewrite <- Hres1 in Hpipe1. rewrite (Hleft1 self1 (eq_sym Hres1)) in Hcache1.
  assert (Hcached : cache1 !! path_resolve r "tsconfig.json" = Some (Some (options self1))).
  { rewrite Hcache1. unfold Cached.ModuleCache. apply lookup_insert_eq. }
  rewrite (Cached_constructor_from_cache c r (options self1) cache1 Hroot Hne Hcached) in Hc2.
  cbn [fst] in Hc2.
  destruct (Cached_body_spec (index_plugin_options c) c (options self1)) as [Hpipe2 _].
  rewrite Hc2 in Hpipe2. unfold_monad.
  destruct (normalize (sourceMaps c) (overlay (index_plugin_options c) t)) as [e | o1];
    [discriminate |].
  destruct (build_isIgnored (index_plugin_options c) c) as [e | ignored]; [discriminate |].
  symmetry in Hpipe1.
  destruct (normalize (sourceMaps c) (overlay (index_plugin_options c) (options self1)))
    as [e | o2] eqn:Hn2; [discriminate |].
  symmetry in Hpipe2.
  assert (Hk1 : ~ In "ignoreErrors" normalized_keys).
  { cbn. intros H. repeat (destruct H as [H | H]; [discriminate H |]). exact H. }
  assert (Hk2 : ~ In "pattern" normalized_keys).
  { cbn. intros H. repeat (destruct H as [H | H]; [discriminate H |]). exact H. }
  assert (Hget1 : truthy (get o2 "ignoreErrors") = false).
  { rewrite (normalize_get_merged _ _ _ _ _ Hn2 Hk1) by discriminate.
    unfold merged_option. rewrite Hie.
    apply (finished_option_is_falsy o1 ignored None self1 _ Hpipe1). now right. }
  assert (Hget2 : truthy (get o2 "pattern") = false).
  { rewrite (normalize_get_merged _ _ _ _ _ Hn2 Hk2) by discriminate.
    unfold merged_option. rewrite Hpat.
    apply (finished_option_is_falsy o1 ignored None self1 _ Hpipe1). now left. }
  destruct (finish_options o2 ignored None self2 Hpipe2) as [Hp _].
  rewrite Hget2 in Hp.
  apply finish_ignoreErrors in Hpipe2 as (_ & _ & Hfilter).
  assert (Hnone : ignoreAllErrors self2 = None /\ ignoreErrors self2 = None).
  { destruct (get o2 "ignoreErrors") as [| | [|] | n | s | l | m | x];
      try discriminate Hget1; destruct Hfilter as [Hall Hset];
      rewrite ?Hget1 in Hset; now split. }
  destruct Hnone as [Hall Hset]. split; [exact Hall |]. split; [exact Hset |].
  unfold get_pattern. now rewrite Hp.
Qed.

Lemma first_construction_succeeds :
  Cached.constructor (host := filter_project_host) (Some (Sample.config ∅ false)) ∅ =
    (inr first_adapter, snd first_construction).
Proof. vm_compute. reflexivity. Qed.

Lemma X26_witness :
  snd first_construction !! "/app/tsconfig.json" = Some (Some (options first_adapter))
  /\ filter_tsconfig !! "ignoreErrors" = Some (VBool true)
  /\ options first_adapter !! "ignoreErrors" = None
  /\ options first_adapter !! "module" = Some (VNumber (Int 1)).
Proof.
  split; [| repeat split; vm_compute; reflexivity].
  apply (X26_construction_rewrites_cached_tsconfig (host := filter_project_host)
           (Sample.config ∅ false) "/app"
           {| tsconfig_compilerOptions := Some filter_tsconfig |} filter_tsconfig
           first_adapter ∅ (snd first_construction)
           eq_refl ltac:(discriminate) eq_refl eq_refl eq_refl first_construction_succeeds).
Defined.

Lemma X27_witness :
  ignoreAllErrors first_adapter = Some true
  /\ get_pattern first_adapter = VRegExp "\.mts$"
  /\ ignoreAllErrors second_adapter = None
  /\ ignoreErrors second_adapter = None
  /\ get_pattern second_adapter = prototype_pattern.
Proof.
  split; [vm_compute; reflexivity |]. split; [vm_compute; reflexivity |].
  apply (X27_second_construction_forgets_tsconfig (host := filter_project_host)
           (Sample.config ∅ false) "/app"
           {| tsconfig_compilerOptions := Some filter_tsconfig |} filter_tsconfig
           first_adapter second_adapter (snd first_construction)
           eq_refl ltac:(discriminate) eq_refl eq_refl eq_refl eq_refl
           first_construction_succeeds).
  vm_compute. reflexivity.
Defined.

Lemma X22_witness :
  resolveEnum (host := Sample.node) (VObject ∅) Sample.JsxEmit =
    inl (TypeError "choice.toUpperCase is not a function")
  /\ exists msg, resolveEnum (host := Sample.node) (VArray [VNumber (Int 1); VNumber (Int 2)])
                   Sample.ModuleKind = inl (TypeError msg).
Proof.
  split; [reflexivity |].
  apply (proj2 (X22_resolveEnum_throws_on_objects_only (host := Sample.node)
                  (VArray [VNumber (Int 1); VNumber (Int 2)]) Sample.ModuleKind));
    [exact I | reflexivity | discriminate].
Defined.
